(** * iscsictl: remote iSCSI provisioning (scripts/iscsictl.py)

    A shallow embedding of the configuration editor ([ISCSI.append_cfg],
    [ISCSI.remove_cfg]), of the two deployments ([Target], [Initiator]) and
    of the key-install exchange of [SSH], with the properties of the
    specification stated over it.

    Remote commands run through a login shell on the far side.  The files of
    the remote host are a finite map from paths to contents; the commands the
    script uses on them ([cat], [echo], [cp], [mv], [rm]) are given their
    meaning on that map, every other command is left to the host.  The part
    of the remote shell's word splitting and of Python's [re] syntax that is
    modelled is delimited explicitly: outside of it the model answers [None]
    instead of guessing. *)

From Stdlib Require Import String Ascii List Bool ZArith Lia.
From stdpp Require Import base option strings list gmap pretty.

Local Open Scope string_scope.

#[local] Arguments String.append : simpl nomatch.

(** ** Characters and Python string operations *)

Definition LF : ascii := "010"%char.
Definition TAB : ascii := "009"%char.
Definition DQUOTE : ascii := "034"%char.

(** The one-character strings: a newline, a double quote. *)
Definition nl : string := String LF "".
Definition dq : string := String DQUOTE "".

Module Py.

(** [s.startswith(p)] *)
Fixpoint startswith (p s : string) : bool :=
  match p, s with
  | "", _ => true
  | String _ _, "" => false
  | String a p', String b s' => Ascii.eqb a b && startswith p' s'
  end.

(** [s.endswith(suf)]: some suffix of [s] is [suf]. *)
Fixpoint endswith (s suf : string) : bool :=
  String.eqb s suf ||
  match s with
  | "" => false
  | String _ s' => endswith s' suf
  end.

(** [sub in s] *)
Fixpoint contains (sub s : string) : bool :=
  startswith sub s ||
  match s with
  | "" => false
  | String _ s' => contains sub s'
  end.

(** [s.replace(old, '')] scans left to right and drops every occurrence
    of [old] that does not overlap an earlier one.  [skip] counts the
    characters of the current occurrence that are still to be dropped. *)
Fixpoint replace_go (old : string) (skip : nat) (s : string) : string :=
  match s with
  | "" => ""
  | String c s' =>
      match skip with
      | S k => replace_go old k s'
      | O =>
          if startswith old s
          then replace_go old (String.length old - 1) s'
          else String c (replace_go old 0 s')
      end
  end.

Definition replace_del (old s : string) : string :=
  match old with
  | "" => s
  | String _ _ => replace_go old 0 s
  end.

(** [s.split('\n')]: never empty, a trailing separator yields a last
    empty piece. *)
Fixpoint split_nl (s : string) : list string :=
  match s with
  | "" => [""]
  | String c s' =>
      if Ascii.eqb c LF then "" :: split_nl s'
      else match split_nl s' with
           | x :: xs => String c x :: xs
           | [] => [String c ""]
           end
  end.

(** [s.split()]: the maximal runs of non-blank characters, blanks being
    the six characters of [Ascii.is_space]. *)
Definition split (s : string) : list string := String.words s.

(** [not s] for a value that is [None] or a string. *)
Definition falsy (o : option string) : bool :=
  match o with
  | None | Some "" => true
  | Some (String _ _) => false
  end.

(** ['%s' % o] for a value that is [None] or a string. *)
Definition str (o : option string) : string := default "None" o.

End Py.

(** ** The modelled part of Python's [re]

    [append_cfg] uses each line as a pattern.  Patterns made of ordinary
    characters and of [.] are modelled; a pattern holding another
    metacharacter is outside the model. *)

Inductive re_atom := ReChar (c : ascii) | ReAny.

Definition re_special (c : ascii) : bool :=
  Py.contains (String c "") "\^$*+?{}[]()|".

Fixpoint re_compile (p : string) : option (list re_atom) :=
  match p with
  | "" => Some []
  | String c p' =>
      if re_special c then None
      else r ← re_compile p';
           Some ((if Ascii.eqb c "." then ReAny else ReChar c) :: r)
  end.

Definition re_atom_ok (a : re_atom) (c : ascii) : bool :=
  match a with
  | ReChar x => Ascii.eqb x c
  | ReAny => negb (Ascii.eqb c LF)
  end.

(** [$] under [re.MULTILINE]: the end of the text or just before a
    newline. *)
Definition at_eol (s : string) : bool :=
  match s with
  | "" => true
  | String c _ => Ascii.eqb c LF
  end.

(** The atoms, then [$], match at the head of [s]. *)
Fixpoint re_match_here (r : list re_atom) (s : string) : bool :=
  match r with
  | [] => at_eol s
  | a :: r' =>
      match s with
      | "" => false
      | String c s' => re_atom_ok a c && re_match_here r' s'
      end
  end.

(** [^] under [re.MULTILINE]: the start of the text or just after a
    newline; [bol] tells whether the current position is one. *)
Fixpoint re_search_bol (bol : bool) (r : list re_atom) (s : string) : bool :=
  (bol && re_match_here r s) ||
  match s with
  | "" => false
  | String c s' => re_search_bol (Ascii.eqb c LF) r s'
  end.

(** [re.search('^%s$' % line, cfg, re.MULTILINE)] as a truth value. *)
Definition re_search_line (line cfg : string) : option bool :=
  r ← re_compile line; Some (re_search_bol true r cfg).

(** ** The modelled part of the remote shell

    [ssh] hands the remote shell the arguments joined by blanks.  Modelled:
    words of unreserved characters separated by blanks, and double-quoted
    stretches free of backslash, dollar, backquote and double quote (the
    remote shell is not interactive: it has no history expansion). *)

Definition is_alnum (c : ascii) : bool :=
  let n := nat_of_ascii c in
  (((48 <=? n) && (n <=? 57)) || ((65 <=? n) && (n <=? 90)) ||
   ((97 <=? n) && (n <=? 122)))%nat.

Definition sh_plain (c : ascii) : bool :=
  is_alnum c || Py.contains (String c "") "._:/=-,%@+".

Definition sh_blank (c : ascii) : bool :=
  Ascii.eqb c " " || Ascii.eqb c TAB.

Definition sh_dq_literal (c : ascii) : bool :=
  negb (Py.contains (String c "") "\$`" || Ascii.eqb c DQUOTE).

(** Scans a command-line fragment.  The answer is the rest of the word that
    is open at the current position, whether anything at or after this
    position belongs to that word, and the words that follow it. *)
Fixpoint sh_scan (inq : bool) (s : string) : option (string * bool * list string) :=
  match s with
  | "" => if inq then None else Some ("", false, [])
  | String c s' =>
      if inq then
        if Ascii.eqb c DQUOTE then
          '(h, _, t) ← sh_scan false s'; Some (h, true, t)
        else if sh_dq_literal c then
          '(h, _, t) ← sh_scan true s'; Some (String c h, true, t)
        else None
      else
        if Ascii.eqb c DQUOTE then
          '(h, _, t) ← sh_scan true s'; Some (h, true, t)
        else if sh_blank c then
          '(h, st, t) ← sh_scan false s';
          Some ("", false, if st : bool then h :: t else t)
        else if sh_plain c then
          '(h, _, t) ← sh_scan false s'; Some (String c h, true, t)
        else None
  end.

Definition sh_words (s : string) : option (list string) :=
  '(h, st, t) ← sh_scan false s; Some (if st : bool then h :: t else t).

(** What [echo -e ARGS] (or [echo -e -n ARGS] when [n] is set) prints: the
    words joined by single blanks.  No word holds a backslash, so [-e]
    changes nothing; a first word that starts with [-] could be read as an
    option and is outside the model. *)
Definition echo_out (n : bool) (args : string) : option string :=
  ws ← sh_words args;
  if Py.startswith "-" (hd "" ws) then None
  else Some (String.concat " " ws +:+ (if n then "" else nl)).

(** A path the remote shell reads as one word. *)
Fixpoint all_plain (s : string) : bool :=
  match s with
  | "" => true
  | String c s' => sh_plain c && all_plain s'
  end.

Definition plain_path (p : string) : bool :=
  match p with
  | "" | String "-" _ => false
  | _ => all_plain p
  end.

(** ** Exceptions, outcomes and the monad of remote effects *)

Inductive exn :=
| Exception (msg : string)        (* [raise Exception(msg)] *)
| ErrorReturnCode (code : nat)    (* [sh]: a command left with status [code] *)
| ValueError
| AttributeError
| TypeError.

(** The script raises plain [Exception]s; the specification's error names
    stand for the raise sites, told apart by their messages. *)
Definition EditVerificationError (fedit : string) : exn :=
  Exception ("Configuration file reverted. Check " +:+ fedit +:+ " for more details").
Definition AlreadyBoundError (ldev lfile : string) : exn :=
  Exception ("loop device already installed: " +:+ ldev +:+ " / " +:+ lfile).
Definition ConfigurationError : exn :=
  Exception "Please, provide a path for a loop device".
Definition DeploymentVerificationError : exn :=
  Exception "Unable to deploy the iSCSI target".
Definition TargetNotFoundError (iqn_id discovered : string) : exn :=
  Exception ("Target with ID " +:+ iqn_id +:+ " not found: [" +:+ discovered +:+ "]").

Inductive outcome (A : Type) :=
| Ret (a : A)
| Raise (e : exn).
Arguments Ret {A} a.
Arguments Raise {A} e.

(** A computation over a state [St]: [None] when a command line leaves the
    modelled fragment, else the outcome and the state it leaves behind (a
    raise does not undo what was done before it). *)
Definition M (St A : Type) : Type := St → option (outcome A * St).

Definition ret {St A} (a : A) : M St A := λ s, Some (Ret a, s).
Definition raise {St A} (e : exn) : M St A := λ s, Some (Raise e, s).
Definition beyond {St A} : M St A := λ _, None.
Definition bind {St A B} (m : M St A) (k : A → M St B) : M St B :=
  λ s, match m s with
       | None => None
       | Some (Ret a, s') => k a s'
       | Some (Raise e, s') => Some (Raise e, s')
       end.

Definition get {St} : M St St := λ s, Some (Ret s, s).
Definition modify {St} (f : St → St) : M St unit := λ s, Some (Ret tt, f s).

#[global] Instance M_ret St : MRet (M St) := λ A, ret.
#[global] Instance M_bind St : MBind (M St) := λ A B k m, bind m k.

(** ** The remote host *)

(** An argument handed to a remote command: a string or Python's [None]. *)
Inductive arg := Str (s : string) | PyNone.

Definition arg_of (o : option string) : arg :=
  match o with
  | Some s => Str s
  | None => PyNone
  end.

Record remote := {
  files : gmap string string;   (* path ↦ content *)
  losetup_a : list string       (* the lines [losetup -a] prints *)
}.

Definition set_files (f : gmap string string → gmap string string) (r : remote) : remote :=
  {| files := f (files r); losetup_a := losetup_a r |}.

(** [cat p] *)
Definition cat (p : string) : M remote string := λ r,
  if plain_path p then
    match files r !! p with
    | Some c => Some (Ret c, r)
    | None => Some (Raise (ErrorReturnCode 1), r)
    end
  else None.

(** [echo -e ARGS >> p] *)
Definition echo_append (args p : string) : M remote unit := λ r,
  if plain_path p then
    out ← echo_out false args;
    Some (Ret tt, set_files (<[p := default "" (files r !! p) +:+ out]>) r)
  else None.

(** [echo -e -n ARGS > p] *)
Definition echo_n_to (args p : string) : M remote unit := λ r,
  if plain_path p then
    out ← echo_out true args;
    Some (Ret tt, set_files (<[p := out]>) r)
  else None.

(** [cp -a src dst] *)
Definition cp_a (src dst : string) : M remote unit := λ r,
  if plain_path src && plain_path dst then
    match files r !! src with
    | Some c => Some (Ret tt, set_files (<[dst := c]>) r)
    | None => Some (Raise (ErrorReturnCode 1), r)
    end
  else None.

(** [mv src dst] *)
Definition mv (src dst : string) : M remote unit := λ r,
  if plain_path src && plain_path dst then
    match files r !! src with
    | Some c => Some (Ret tt, set_files (λ f, <[dst := c]> (delete src f)) r)
    | None => Some (Raise (ErrorReturnCode 1), r)
    end
  else None.

(** [rm p] *)
Definition rm (p : string) : M remote unit := λ r,
  if plain_path p then
    match files r !! p with
    | Some _ => Some (Ret tt, set_files (delete p) r)
    | None => Some (Raise (ErrorReturnCode 1), r)
    end
  else None.

(** Every other command is the host's business: [exec] gives its exit
    status, its output and the host afterwards. *)
Definition host := list arg → remote → nat * string * remote.

Definition run (exec : host) (args : list arg) : M remote string := λ r,
  let '(code, out, r') := exec args r in
  match code with
  | O => Some (Ret out, r')
  | S _ => Some (Raise (ErrorReturnCode code), r')
  end.

(** ** class ISCSI *)

Module ISCSI.

Definition service (exec : host) (service : string) (status : bool) : M remote unit :=
  run exec [Str "chkconfig"; Str service; Str (if status then "on" else "off")];;
  mret tt.

Definition zypper (exec : host) (package : string) : M remote unit :=
  run exec [Str "zypper"; Str "--non-interactive"; Str "install";
            Str "--no-recommends"; Str package];;
  mret tt.

(** The loop of [append_cfg]; [cfg] was read once, before the loop. *)
Fixpoint append_cfg_loop (fname cfg : string) (lines : list string) : M remote unit :=
  match lines with
  | [] => mret tt
  | line :: rest =>
      match re_search_line line cfg with
      | None => beyond
      | Some true => append_cfg_loop fname cfg rest
      | Some false => echo_append line fname;; append_cfg_loop fname cfg rest
      end
  end.

Definition append_cfg (fname : string) (lines : list string) : M remote unit :=
  cfg ← cat fname;
  append_cfg_loop fname cfg lines.

(** The loop of [remove_cfg]: [cfg = cfg.replace(line + '\n', '')]. *)
Definition remove_lines (cfg : string) (lines : list string) : string :=
  fold_left (λ cfg line, Py.replace_del (line +:+ nl) cfg) lines cfg.

Definition remove_cfg (fname : string) (lines : list string) : M remote unit :=
  cfg0 ← cat fname;
  let cfg := remove_lines cfg0 lines in
  let fbackup := fname +:+ ".BACKUP" in
  cp_a fname fbackup;;
  echo_n_to (dq +:+ cfg +:+ dq) fname;;
  new_cfg ← cat fname;
  if negb (String.eqb cfg new_cfg) then
    let fedit := fname +:+ ".EDIT" in
    cp_a fname fedit;;
    mv fbackup fname;;
    raise (EditVerificationError fedit)
  else
    rm fbackup.

End ISCSI.

(** ** class Target *)

Module Target.

Record t := {
  device : string;
  path : option string;
  iqn_id : string;
  size : Z                      (* in mega *)
}.

Definition is_digit (c : ascii) : bool :=
  let n := nat_of_ascii c in ((48 <=? n) && (n <=? 57))%nat.

(** The longest run of digits at the head of [s], and what follows. *)
Fixpoint span_digits (s : string) : string * string :=
  match s with
  | "" => ("", "")
  | String c s' =>
      if is_digit c
      then let '(d, rest) := span_digits s' in (String c d, rest)
      else ("", s)
  end.

(** The stretch of [s] that [.*] may cover: up to the first newline. *)
Fixpoint until_nl (s : string) : string :=
  match s with
  | "" => ""
  | String c s' => if Ascii.eqb c LF then "" else String c (until_nl s')
  end.

(** Position of the last [c] in [s]. *)
Fixpoint rindex (c : ascii) (s : string) : option nat :=
  match s with
  | "" => None
  | String a s' =>
      match rindex c s' with
      | Some i => Some (S i)
      | None => if Ascii.eqb a c then Some 0%nat else None
      end
  end.

(** The pattern of [find_loop], matched at the head of a line: the text
    [/dev/loop], one or more digits (group 1 with the prefix), a colon,
    any characters, an opening parenthesis, any characters (group 2), a
    closing parenthesis.  Both runs of any characters are greedy and stop
    at a newline: group 2 ends at the last closing parenthesis of the line
    and starts after the last opening one before it. *)
Definition pattern_match (line : string) : option (string * string) :=
  if Py.startswith "/dev/loop" line then
    let '(digits, rest) := span_digits (String.substring 9 (String.length line) line) in
    match digits, rest with
    | String _ _, String ":" rest =>
        let body := until_nl rest in
        q ← rindex ")" body;
        p ← rindex "(" (String.substring 0 q body);
        Some ("/dev/loop" +:+ digits, String.substring (S p) (q - S p) body)
    | _, _ => None
    end
  else None.

(** The loop of [find_loop] over the lines of [losetup -a]; a line the
    pattern rejects makes [.groups()] fail on [None]. *)
Fixpoint find_loop_scan (loop : string) (lines : list string)
  : outcome (option (string * string)) :=
  match lines with
  | [] => Ret None
  | line :: rest =>
      match pattern_match line with
      | None => Raise AttributeError
      | Some (ldev, lfile) =>
          if String.eqb loop ldev then Ret (Some (ldev, lfile))
          else find_loop_scan loop rest
      end
  end.

Definition find_loop (loop : string) : M remote (option (string * string)) :=
  λ r, Some (find_loop_scan loop (losetup_a r), r).

Definition destroy_loop (exec : host) (loop : string) : M remote unit :=
  is_in ← find_loop loop;
  match is_in with
  | Some (_, path) =>
      out ← run exec [Str "losetup"; Str "-d"; Str loop];
      if Py.contains "can't delete" out then raise (Exception out)
      else rm path
  | None => mret tt
  end.

(** What the local [echo -e 'o\nn\np\n1\n\n\nw'] prints. *)
Definition fdisk_script : string :=
  "o" +:+ nl +:+ "n" +:+ nl +:+ "p" +:+ nl +:+ "1" +:+ nl +:+ nl +:+ nl +:+ "w" +:+ nl.

Definition create_loop (exec : host) (loop path : string) (size : Z) : M remote unit :=
  is_in ← find_loop loop;
  match is_in with
  | Some (ldev, lfile) => raise (AlreadyBoundError ldev lfile)
  | None =>
      run exec [Str "dd"; Str "if=/dev/zero"; Str ("of=" +:+ path); Str "bs=1M";
                Str ("count=" +:+ pretty size)];;
      run exec [Str "fdisk"; Str fdisk_script; Str path];;
      run exec [Str "losetup"; Str loop; Str path];;
      is_in ← find_loop loop;
      match is_in with
      | None => raise TypeError   (* the message formats [None] with two [%s] *)
      | Some _ => mret tt
      end
  end.

Definition iqn (self : t) : string :=
  "iqn.2015-01.qa.cloud.suse.de:" +:+ iqn_id self.

Definition ietd_lines (self : t) : list string :=
  [ "IncomingUser user passwd";
    "Target " +:+ iqn self;
    dq +:+ String TAB "Lun 0 Path=" +:+ device self +:+ dq ].

Definition boot_local : string := "/etc/rc.d/boot.local".
Definition restart_line : string := "rciscsitarget restart".
Definition rebind_line (self : t) : string :=
  "losetup " +:+ device self +:+ " " +:+ Py.str (path self).

(** [deploy] up to the boot-persistence step, its last mutation. *)
Definition deploy_steps (exec : host) (self : t) : M remote unit :=
  ISCSI.zypper exec "iscsitarget";;
  (if Py.startswith "/dev/loop" (device self) then
     match path self with
     | Some (String _ _ as p) => create_loop exec (device self) p (size self)
     | _ => raise ConfigurationError
     end
   else mret tt);;
  ISCSI.append_cfg "/etc/ietd.conf" (ietd_lines self);;
  ISCSI.service exec "iscsitarget" true;;
  run exec [Str "rciscsitarget"; Str "restart"];;
  ISCSI.remove_cfg boot_local [restart_line];;
  ISCSI.append_cfg boot_local [rebind_line self; restart_line].

(** The check that ends [deploy]. *)
Definition check_exported (self : t) : M remote unit :=
  result ← cat "/proc/net/iet/volume";
  if negb (Py.contains (iqn self) result) then raise DeploymentVerificationError
  else mret tt.

Definition deploy (exec : host) (self : t) : M remote unit :=
  deploy_steps exec self;;
  check_exported self.

End Target.

(** ** class Initiator *)

Module Initiator.

Record t := {
  target_host : string;
  iqn_id : string;
  name : option string
}.

Definition __init__ (target_host iqn_id : string) : t :=
  {| target_host := target_host; iqn_id := iqn_id; name := None |}.

Definition set_name (n : option string) (self : t) : t :=
  {| target_host := target_host self; iqn_id := iqn_id self; name := n |}.

(** A remote computation, run by a method of the object. *)
Definition lift {A} (m : M remote A) : M (t * remote) A := λ '(self, r),
  '(o, r') ← m r; Some (o, (self, r')).

Definition get_self : M (t * remote) t :=
  λ '(self, r), Some (Ret self, (self, r)).

Definition put_name (n : option string) : M (t * remote) unit :=
  λ '(self, r), Some (Ret tt, (set_name n self, r)).

Definition iscsid_lines : list string :=
  [ "node.startup = automatic";
    "node.session.auth.authmethod = CHAP";
    "node.session.auth.username = user";
    "node.session.auth.password = passwd";
    "discovery.sendtargets.auth.authmethod = CHAP";
    "discovery.sendtargets.auth.username = user";
    "discovery.sendtargets.auth.password = passwd" ].

(** The discovery loop over [discovered.split('\n')]: the name to store,
    if the loop stores one. *)
Fixpoint discover (iqn_id : string) (pieces : list string) : outcome (option string) :=
  match pieces with
  | [] => Ret None
  | piece :: rest =>
      match Py.split piece with
      | [_; name] =>
          if Py.contains iqn_id name then Ret (Some name)
          else discover iqn_id rest
      | _ => Raise ValueError   (* the unpacking of two values *)
      end
  end.

Definition deploy (exec : host) : M (t * remote) unit :=
  lift (ISCSI.zypper exec "open-iscsi");;
  lift (ISCSI.append_cfg "/etc/iscsid.conf" iscsid_lines);;
  lift (ISCSI.service exec "open-iscsi" true);;
  lift (run exec [Str "sh"; Str "rcopen-iscsi"; Str "restart"]);;
  self ← get_self;
  discovered ← lift (run exec [Str "iscsiadm"; Str "-m"; Str "discovery";
                               Str "--type=st";
                               Str ("--portal=" +:+ target_host self)]);
  match discover (iqn_id self) (Py.split_nl discovered) with
  | Raise e => raise e
  | Ret None => mret tt
  | Ret (Some n) => put_name (Some n)
  end;;
  self ← get_self;
  if Py.falsy (name self)
  then raise (TargetNotFoundError (iqn_id self) discovered)
  else lift (run exec [Str "iscsiadm"; Str "-m"; Str "node"; Str "-n";
                       arg_of (name self); Str "--login"]);;
       mret tt.

Definition logout (exec : host) : M (t * remote) unit :=
  self ← get_self;
  lift (run exec [Str "iscsiadm"; Str "-m"; Str "node"; Str "-n";
                  arg_of (name self); Str "--logout"]);;
  mret tt.

End Initiator.

(** ** class SSH: the key-install exchange and the lazy connection *)

Module SSH.

Record t := {
  host : string;
  user : string;
  password : string;
  key : string;                 (* name of the private key file *)
  _copy_id : bool;
  _connect : option string      (* the baked [ssh] command's destination *)
}.

Definition __init__ (host user password : string) : t :=
  {| host := host; user := user; password := password;
     key := "." +:+ host +:+ "_iscsi_fake_id_dsa";
     _copy_id := false; _connect := None |}.

Definition pub_key (self : t) : string := key self +:+ ".pub".

Definition set_connect (c : option string) (self : t) : t :=
  {| host := host self; user := user self; password := password self;
     key := key self; _copy_id := _copy_id self; _connect := c |}.

(** One call of the watcher [_interact] on a character of the output:
    the new value of [_interact.aggregated] and what is put on [stdin]. *)
Definition _interact (password aggregated : string) (char : ascii)
  : string * list string :=
  let aggregated := aggregated +:+ String char "" in
  if Py.endswith aggregated "Password: " then (aggregated, [password +:+ nl])
  else if Ascii.eqb char LF then ("", [])
  else (aggregated, []).

(** The watcher over a whole output stream: everything put on [stdin]. *)
Fixpoint watch (password aggregated out : string) : list string :=
  match out with
  | "" => []
  | String char out' =>
      let '(aggregated, put) := _interact password aggregated char in
      (put ++ watch password aggregated out')%list
  end.

(** A run of [ssh-copy-id]: the key installed, the destination, and what
    the watcher answered. *)
Record exchange := {
  ex_key : string;
  ex_dest : string;
  ex_stdin : list string
}.

(** The local [ssh-copy-id] process, given key and destination: its exit
    status and the characters it prints. *)
Definition copier := string → string → nat * string.

Definition dest (self : t) : string := user self +:+ "@" +:+ host self.

Definition ssh_copy_id (proc : copier) : M (t * list exchange) unit :=
  λ '(self, log),
    if _copy_id self then Some (Ret tt, (self, log))
    else
      let '(code, out) := proc (pub_key self) (dest self) in
      let ex := {| ex_key := pub_key self; ex_dest := dest self;
                   ex_stdin := watch (password self) "" out |} in
      match code with
      | O => Some (Ret tt, (self, (log ++ [ex])%list))
      | S _ => Some (Raise (ErrorReturnCode code), (self, (log ++ [ex])%list))
      end.

Definition connect (proc : copier) : M (t * list exchange) string :=
  '(self, _) ← get;
  (if negb (_copy_id self) then ssh_copy_id proc else mret tt);;
  modify (λ '(self, log), (set_connect (Some (dest self)) self, log));;
  mret (dest self).

(** [__getattr__]: any remote operation connects first when there is no
    connection yet. *)
Definition __getattr__ (proc : copier) : M (t * list exchange) (option string) :=
  '(self, _) ← get;
  match _connect self with
  | None => connect proc;; mret tt
  | Some _ => mret tt
  end;;
  '(self, _) ← get;
  mret (_connect self).

End SSH.

(** ** Hosts and processes used to run the model on concrete inputs *)

(** A host on which every command succeeds, prints nothing and changes
    nothing. *)
Definition quiet_host : host := λ _ r, (0%nat, "", r).

(** The same host, whose discovery prints [listing]. *)
Definition discovery_host (listing : string) : host := λ args r,
  match args with
  | Str "iscsiadm" :: Str "-m" :: Str "discovery" :: _ => (0%nat, listing, r)
  | _ => (0%nat, "", r)
  end.

(** A copy process that asks for the password once and succeeds. *)
Definition asking_copier : SSH.copier := λ _ _, (0%nat, "Password: " +:+ nl).

Definition mk_remote (l : list (string * string)) : remote :=
  {| files := list_to_map l; losetup_a := [] |}.

(** ** Vocabulary of the statements *)

(** The text made of the lines [ls], each closed by a newline. *)
Definition unlines (ls : list string) : string :=
  fold_right (λ l acc, l +:+ nl +:+ acc) "" ls.

Fixpoint no_nl (s : string) : bool :=
  match s with
  | "" => true
  | String c s' => negb (Ascii.eqb c LF) && no_nl s'
  end.

Fixpoint all_dq_literal (s : string) : bool :=
  match s with
  | "" => true
  | String c s' => sh_dq_literal c && all_dq_literal s'
  end.

(** A line [append_cfg] handles as meant: it has no newline, the remote
    [echo] prints it back unchanged, and it is a pattern of the modelled
    fragment. *)
Definition good_line (l : string) : bool :=
  no_nl l &&
  match echo_out false l with
  | Some out => String.eqb out (l +:+ nl)
  | None => false
  end &&
  match re_compile l with
  | Some _ => true
  | None => false
  end.

(** [line] is a pattern that finds no line of [cfg]: the test that makes
    [append_cfg] append it. *)
Definition unmatched (cfg line : string) : bool :=
  match re_search_line line cfg with
  | Some false => true
  | _ => false
  end.

(** [line], read as a pattern, matches the whole of [l]. *)
Definition line_matches (line l : string) : bool :=
  match re_compile line with
  | Some r => re_match_here r l
  | None => false
  end.

(** A line of a file that [remove_cfg] can filter [x] from without harm:
    double-quotable, not an option of [echo], and holding [x] as a whole or
    not at its end. *)
Definition removable_from (x l : string) : bool :=
  no_nl l && all_dq_literal l && negb (Py.startswith "-" l) &&
  (String.eqb l x || negb (Py.endswith l x)).

(** [n] calls of [Target.deploy] in a row. *)
Fixpoint deploys (exec : host) (self : Target.t) (n : nat) : M remote unit :=
  match n with
  | O => mret tt
  | S n' => Target.deploy exec self;; deploys exec self n'
  end.

(** ** Further vocabulary and concrete inputs *)

Definition two_targets : string :=
  "10.0.0.1:3260 iqn.2015-01.qa.cloud.suse.de:id01" +:+ nl +:+
  "10.0.0.1:3260 iqn.2015-01.qa.cloud.suse.de:id02".

Definition logout_cmd (name : option string) : list arg :=
  [Str "iscsiadm"; Str "-m"; Str "node"; Str "-n"; arg_of name; Str "--logout"].

Definition sdc_target : Target.t :=
  {| Target.device := "/dev/sdc"; Target.path := None;
     Target.iqn_id := "id01"; Target.size := 1 |}.

(** A line of the listing that names another device than [loop]. *)
Definition other_device (loop line : string) : bool :=
  match Target.pattern_match line with
  | Some (ldev, _) => negb (String.eqb loop ldev)
  | None => false
  end.

Definition two_loops : remote :=
  {| files := {[ "/tmp/id01-iscsi.loop" := "image" ]};
     losetup_a := ["/dev/loop1: [0803]:99 (/tmp/other.loop)";
                   "/dev/loop0: [0803]:1234 (/tmp/id01-iscsi.loop)"] |}.

(** A host that would wipe everything at the first command it gets. *)
Definition wiping_host : host := λ _ _, (0%nat, "", mk_remote []).

(** The host with the content of [p] replaced. *)
Definition write (p c : string) (r : remote) : remote :=
  set_files (<[p := c]>) r.


Definition re_nl_free (r : list re_atom) : bool :=
  forallb (λ a, match a with
                | ReChar c => negb (Ascii.eqb c LF)
                | ReAny => true
                end) r.

(** The number of lines of [ls] equal to [l]. *)
Definition occurrences (l : string) (ls : list string) : nat :=
  length (List.filter (String.eqb l) ls).

Definition differs_from (x l : string) : bool := negb (String.eqb l x).

Fixpoint no_dot (p : string) : bool :=
  match p with
  | "" => true
  | String c p' => negb (Ascii.eqb c ".") && no_dot p'
  end.

(** The lines of the boot script after the persistence step, from its
    lines before: the restart lines go, the re-bind line is added unless a
    line is found for it, the restart line comes last. *)
Definition boot_step (self : Target.t) (ls : list string) : list string :=
  let kept := List.filter (differs_from Target.restart_line) ls in
  kept ++
  (if existsb (line_matches (Target.rebind_line self)) kept then []
   else [Target.rebind_line self]) ++
  [Target.restart_line].

(** A target and a boot script the persistence step handles as meant: the
    re-bind line is a good line that does not end with the restart line,
    and every line of the script can be written back and filtered, and is
    not found by the re-bind line. *)
Definition boot_ready (self : Target.t) (ls : list string) : bool :=
  good_line (Target.rebind_line self) &&
  removable_from Target.restart_line (Target.rebind_line self) &&
  forallb (λ l, removable_from Target.restart_line l &&
                negb (line_matches (Target.rebind_line self) l)) ls.

(** No command the host runs on its own account touches the boot script. *)
Definition boot_frame (exec : host) : Prop :=
  ∀ args s, files (exec args s).2 !! Target.boot_local = files s !! Target.boot_local.

(** A lab host with an empty target configuration, the given boot script
    and an export table that shows the target [id01]. *)
Definition lab_host (ietd boot : string) : remote :=
  mk_remote [("/etc/ietd.conf", ietd); (Target.boot_local, boot);
             ("/proc/net/iet/volume",
              "tid:1 name:iqn.2015-01.qa.cloud.suse.de:id01")].

(** ** class Key: the local key pair *)

Module Key.

Record t := { name : string }.

(** The local files the class touches: path to permission bits and
    content. *)
Abbreviation lfs := (gmap string (N * string)).

(** What can go wrong locally: [os.chmod] or [os.remove] on a missing
    path, and a [ssh-keygen] that leaves with a status other than zero. *)
Inductive error :=
| OSError (path : string)
| KeygenFailed (code : nat).

(** The local [ssh-keygen -t dsa -f name -N ''], given the files: its exit
    status and the files afterwards. *)
Definition keygen : Type := string → lfs → nat * lfs.

(** The permission bits [0600]. *)
Definition mode_0600 : N := 384.

Definition key (self : t) : string := name self.
Definition pub_key (self : t) : string := name self +:+ ".pub".

(** [os.chmod(path, mode)] *)
Definition chmod (path : string) (mode : N) (fs : lfs) : error + lfs :=
  match fs !! path with
  | Some (_, content) => inr (<[path := (mode, content)]> fs)
  | None => inl (OSError path)
  end.

(** [os.remove(path)] *)
Definition remove (path : string) (fs : lfs) : error + lfs :=
  match fs !! path with
  | Some _ => inr (delete path fs)
  | None => inl (OSError path)
  end.

(** [Key(name)]: the outcome and the local files afterwards. *)
Definition __init__ (gen : keygen) (name : option string) (fs : lfs)
  : (error + t) * lfs :=
  let self := {| name := if Py.falsy name then ".iscsi_fake_id_dsa" else Py.str name |} in
  let '(code, fs1) :=
    match fs !! key self with
    | Some _ => (0%nat, fs)
    | None => gen (key self) fs
    end in
  match code with
  | S _ => (inl (KeygenFailed code), fs1)
  | O =>
      match chmod (key self) mode_0600 fs1 with
      | inl e => (inl e, fs1)
      | inr fs2 =>
          match chmod (pub_key self) mode_0600 fs2 with
          | inl e => (inl e, fs2)
          | inr fs3 => (inr self, fs3)
          end
      end
  end.

(** [clean_key], which [__del__] calls. *)
Definition clean_key (self : t) (fs : lfs) : (error + unit) * lfs :=
  match fs !! key self with
  | None => (inr tt, fs)
  | Some _ =>
      match remove (key self) fs with
      | inl e => (inl e, fs)
      | inr fs1 =>
          match remove (pub_key self) fs1 with
          | inl e => (inl e, fs1)
          | inr fs2 => (inr tt, fs2)
          end
      end
  end.

(** A [ssh-keygen] that does its work: it succeeds, leaves the two files
    of the pair behind and touches no other path. *)
Definition generates (gen : keygen) : Prop :=
  ∀ name fs,
    (gen name fs).1 = 0%nat ∧
    is_Some ((gen name fs).2 !! name) ∧
    is_Some ((gen name fs).2 !! (name +:+ ".pub")) ∧
    ∀ p, p ≠ name → p ≠ name +:+ ".pub" → (gen name fs).2 !! p = fs !! p.

(** The simplest such [ssh-keygen]. *)
Definition plain_keygen : keygen := λ name fs,
  (0%nat, <[name +:+ ".pub" := (420%N, "public")]> (<[name := (384%N, "private")]> fs)).

End Key.

(** ** More vocabulary *)

(** The prompt the watcher of [ssh_copy_id] waits for. *)
Definition prompt : string := "Password: ".

(** The number of places in the output [out] at which the whole output so
    far ([seen], then the characters of [out] up to there) ends with the
    prompt. *)
Fixpoint prompts_seen (seen out : string) : nat :=
  match out with
  | "" => 0
  | String c out' =>
      let seen := seen +:+ String c "" in
      ((if Py.endswith seen prompt then 1 else 0) + prompts_seen seen out')%nat
  end.

Fixpoint all_digits (s : string) : bool :=
  match s with
  | "" => true
  | String c s' => Target.is_digit c && all_digits s'
  end.

Fixpoint lacks (c : ascii) (s : string) : bool :=
  match s with
  | "" => true
  | String a s' => negb (Ascii.eqb a c) && lacks c s'
  end.

(** A line of [losetup -a]: the device [/dev/loopN], a colon, details,
    and the backing file between parentheses. *)
Definition loop_line (digits details file : string) : string :=
  "/dev/loop" +:+ digits +:+ ":" +:+ details +:+ "(" +:+ file +:+ ")".

(** The line that lands in the target configuration for the quoted Lun
    line of [Target.deploy]. *)
Definition lun_written (self : Target.t) : string :=
  String TAB "Lun 0 Path=" +:+ Target.device self.

(** The three commands of [create_loop], as handed to the host. *)
Definition dd_cmd (path : string) (size : Z) : list arg :=
  [Str "dd"; Str "if=/dev/zero"; Str ("of=" +:+ path); Str "bs=1M";
   Str ("count=" +:+ pretty size)].
Definition fdisk_cmd (path : string) : list arg :=
  [Str "fdisk"; Str Target.fdisk_script; Str path].
Definition losetup_cmd (loop path : string) : list arg :=
  [Str "losetup"; Str loop; Str path].
Definition zypper_cmd (package : string) : list arg :=
  [Str "zypper"; Str "--non-interactive"; Str "install"; Str "--no-recommends";
   Str package].

(** A host whose [losetup LOOP PATH] adds the binding to the listing. *)
Definition binding_host : host := λ args r,
  match args with
  | [Str "losetup"; Str loop; Str path] =>
      (0%nat, "",
       {| files := files r;
          losetup_a := losetup_a r ++ [loop +:+ ": [0803]:7 (" +:+ path +:+ ")"] |})
  | _ => (0%nat, "", r)
  end.

(** A host on which every command fails with status 4. *)
Definition failing_host : host := λ _ r, (4%nat, "", r).

(** A host whose [losetup -d] refuses. *)
Definition busy_host : host := λ args r,
  match args with
  | [Str "losetup"; Str "-d"; _] => (0%nat, "ioctl: LOOP_CLR_FD: can't delete", r)
  | _ => (0%nat, "", r)
  end.

(** A copy process that fails. *)
Definition refusing_copier : SSH.copier := λ _ _, (1%nat, "Permission denied").

(** The discovery command of [Initiator.deploy], as handed to the host. *)
Definition discovery_cmd (target_host : string) : list arg :=
  [Str "iscsiadm"; Str "-m"; Str "discovery"; Str "--type=st";
   Str ("--portal=" +:+ target_host)].

(** A host whose discovery prints [listing] and whose login is refused
    with status 8. *)
Definition login_refusing_host (listing : string) : host := λ args r,
  match args with
  | Str "iscsiadm" :: Str "-m" :: Str "discovery" :: _ => (0%nat, listing, r)
  | Str "iscsiadm" :: Str "-m" :: Str "node" :: _ => (8%nat, "", r)
  | _ => (0%nat, "", r)
  end.

(** * Properties *)

(** ** Strings *)

Lemma app_nil_r_s (s : string) : s +:+ "" = s.
Proof. induction s as [|c s IH]; simpl; [reflexivity | now rewrite IH]. Qed.

Lemma app_assoc_s (a b c : string) : (a +:+ b) +:+ c = a +:+ (b +:+ c).
Proof. induction a as [|x a IH]; simpl; [reflexivity | now rewrite IH]. Qed.

Lemma length_app_s (a b : string) :
  String.length (a +:+ b) = (String.length a + String.length b)%nat.
Proof. induction a as [|x a IH]; simpl; [reflexivity | now rewrite IH]. Qed.

Lemma app_not_self (a b : string) : b ≠ "" → a +:+ b ≠ a.
Proof.
  intros Hb Heq. apply Hb.
  apply (f_equal String.length) in Heq. rewrite length_app_s in Heq.
  destruct b; [reflexivity | simpl in Heq; lia].
Qed.

Lemma app_inj_l (a b c : string) : a +:+ b = a +:+ c → b = c.
Proof. induction a as [|x a IH]; simpl; intros H; [assumption | injection H; auto]. Qed.

Lemma all_plain_app (a b : string) :
  all_plain (a +:+ b) = all_plain a && all_plain b.
Proof.
  induction a as [|x a IH]; simpl; [reflexivity |].
  rewrite IH. now rewrite andb_assoc.
Qed.

Lemma plain_path_app (p suffix : string) :
  plain_path p = true → all_plain suffix = true → plain_path (p +:+ suffix) = true.
Proof.
  intros Hp Hs. destruct p as [|c p]; [discriminate |].
  assert (Hall : all_plain (String c p) = true).
  { unfold plain_path in Hp. destruct c as [[] [] [] [] [] [] [] []]; try exact Hp; discriminate. }
  assert (Happ : all_plain (String c p +:+ suffix) = true).
  { rewrite all_plain_app, Hall, Hs. reflexivity. }
  unfold plain_path in *. simpl in *.
  destruct c as [[] [] [] [] [] [] [] []]; try exact Happ; discriminate.
Qed.

Lemma unlines_app (a b : list string) : unlines (a ++ b) = unlines a +:+ unlines b.
Proof.
  induction a as [|l a IH]; simpl; [reflexivity |].
  now rewrite IH, !app_assoc_s.
Qed.

(** ** The monad *)

Lemma bind_unfold {St A B} (m : M St A) (k : A → M St B) (s : St) :
  (m ≫= k) s = match m s with
               | None => None
               | Some (Ret a, s') => k a s'
               | Some (Raise e, s') => Some (Raise e, s')
               end.
Proof. reflexivity. Qed.

Lemma bind_ret_inv {St A B} (m : M St A) (k : A → M St B) (s s2 : St) (b : B) :
  (m ≫= k) s = Some (Ret b, s2) →
  ∃ a s1, m s = Some (Ret a, s1) ∧ k a s1 = Some (Ret b, s2).
Proof.
  rewrite bind_unfold. destruct (m s) as [[[a|e] s1]|]; intros H; try discriminate.
  eauto.
Qed.

Lemma bind_some_inv {St A B} (m : M St A) (k : A → M St B) (s s2 : St) (o : outcome B) :
  (m ≫= k) s = Some (o, s2) →
  (∃ a s1, m s = Some (Ret a, s1) ∧ k a s1 = Some (o, s2)) ∨
  (∃ e, m s = Some (Raise e, s2) ∧ o = Raise e).
Proof.
  rewrite bind_unfold. destruct (m s) as [[[a|e] s1]|]; intros H; try discriminate.
  - left. eauto.
  - right. injection H as <- <-. eauto.
Qed.

(** ** remove_cfg: what is filtered (C3) *)

(** C3 (the code departs from it).  [remove_cfg] is to drop exactly the
    lines equal to a target line and leave everything else alone.  Here
    the boot script calls the service by its full path; no line of it
    equals the target line [rciscsitarget restart], yet the edit succeeds
    and leaves only the head of the line, without its line end:
    [str.replace] drops the target wherever it ends a line. *)
Lemma remove_cfg_cuts_line_suffix :
  let r := mk_remote [(Target.boot_local, "/sbin/rciscsitarget restart" +:+ nl)] in
  ISCSI.remove_lines ("/sbin/rciscsitarget restart" +:+ nl) [Target.restart_line] = "/sbin/" ∧
  ∃ r', ISCSI.remove_cfg Target.boot_local [Target.restart_line] r = Some (Ret tt, r') ∧
        files r' !! Target.boot_local = Some "/sbin/".
Proof.
  split; [reflexivity |].
  eexists. split; vm_compute; reflexivity.
Qed.

(** ** Initiator: discovery and logout (C5, C9) *)

(** The loop stops at the first piece whose second field holds the id. *)
Lemma discover_first_match (id : string) (before after : list string)
    (piece portal name : string) :
  Forall (λ p, ∃ a b, Py.split p = [a; b] ∧ Py.contains id b = false) before →
  Py.split piece = [portal; name] →
  Py.contains id name = true →
  Initiator.discover id (before ++ piece :: after) = Ret (Some name).
Proof.
  intros Hbefore Hpiece Hname.
  induction Hbefore as [|p ps (a & b & Hp & Hb) _ IH]; simpl.
  - now rewrite Hpiece, Hname.
  - now rewrite Hp, Hb.
Qed.

(** When every piece has two fields and none holds the id, the loop ends
    without a name. *)
Lemma discover_no_match (id : string) (pieces : list string) :
  Forall (λ p, ∃ a b, Py.split p = [a; b] ∧ Py.contains id b = false) pieces →
  Initiator.discover id pieces = Ret None.
Proof.
  induction 1 as [|p ps (a & b & Hp & Hb) _ IH]; simpl; [reflexivity |].
  now rewrite Hp, Hb.
Qed.

(** A name the loop stores holds the id. *)
Lemma discover_holds_id (id : string) (pieces : list string) (n : string) :
  Initiator.discover id pieces = Ret (Some n) → Py.contains id n = true.
Proof.
  induction pieces as [|p ps IH]; simpl; [discriminate |].
  destruct (Py.split p) as [|a [|b [|c l]]]; try discriminate.
  destruct (Py.contains id b) eqn:Hb; [| exact IH].
  intros H. injection H as <-. exact Hb.
Qed.

(** The listing of the specification: asking for [id02] selects the second
    entry. *)
Example discover_second_entry :
  Initiator.discover "id02" (Py.split_nl two_targets)
  = Ret (Some "iqn.2015-01.qa.cloud.suse.de:id02").
Proof. reflexivity. Qed.

(** Without its last newline the same listing, asked for an absent id,
    ends in the error that embeds the listing. *)
Example deploy_absent_id_unterminated :
  fst <$> Initiator.deploy (discovery_host two_targets)
            (Initiator.__init__ "10.0.0.1" "id03", mk_remote [("/etc/iscsid.conf", "")])
  = Some (Raise (TargetNotFoundError "id03" two_targets)).
Proof. vm_compute. reflexivity. Qed.

(** C5 (the code departs from it).  A discovery listing as [iscsiadm]
    prints it ends with a newline.  [split] then yields a last empty piece;
    when no entry before it holds the id, unpacking that piece into two
    values raises [ValueError], and the error that embeds the listing is
    never reached.  The name stays unset. *)
Lemma deploy_absent_id_raises_ValueError :
  let listing := "10.0.0.1:3260,1 iqn.2015-01.qa.cloud.suse.de:id01" +:+ nl in
  ∃ r', Initiator.deploy (discovery_host listing)
          (Initiator.__init__ "10.0.0.1" "id02", mk_remote [("/etc/iscsid.conf", "")])
        = Some (Raise ValueError, (Initiator.__init__ "10.0.0.1" "id02", r')) ∧
        Raise (A:=unit) ValueError ≠ Raise (TargetNotFoundError "id02" listing).
Proof.
  eexists. split; [vm_compute; reflexivity | discriminate].
Qed.

(** What [logout] does, whatever the stored name. *)
Lemma logout_unfold (exec : host) (self : Initiator.t) (r : remote) :
  Initiator.logout exec (self, r) =
  let '(code, _, r') := exec (logout_cmd (Initiator.name self)) r in
  Some (match code with O => Ret tt | S _ => Raise (ErrorReturnCode code) end, (self, r')).
Proof.
  unfold Initiator.logout, logout_cmd.
  rewrite bind_unfold. unfold Initiator.get_self. rewrite bind_unfold.
  unfold Initiator.lift, run. simpl.
  destruct (exec _ r) as [[code out] r']. simpl.
  destruct code; reflexivity.
Qed.

(** C9 (counterexample).  On an initiator that never deployed, [logout]
    raises nothing: it sends the logout command with the unset name to the
    host and returns when the host accepts it. *)
Lemma logout_never_deployed_returns :
  Initiator.logout quiet_host (Initiator.__init__ "10.0.0.1" "id01", mk_remote [])
  = Some (Ret tt, (Initiator.__init__ "10.0.0.1" "id01", mk_remote [])).
Proof. reflexivity. Qed.

Lemma lift_self {A} (m : M remote A) (self self' : Initiator.t) (r r' : remote)
    (o : outcome A) :
  Initiator.lift m (self, r) = Some (o, (self', r')) → self' = self.
Proof.
  unfold Initiator.lift. simpl. destruct (m r) as [[o1 r1]|]; simpl; [| discriminate].
  intros H. now injection H.
Qed.

Lemma get_self_inv (s s1 : Initiator.t * remote) (self : Initiator.t) :
  Initiator.get_self s = Some (Ret self, s1) → s1 = s ∧ self = s.1.
Proof.
  destruct s as [x r]. unfold Initiator.get_self. intros H. injection H as <- <-. auto.
Qed.

(** A deploy that succeeds on a fresh initiator has stored a name that
    holds the id. *)
Lemma deploy_sets_name (exec : host) (th id : string) (r r' : remote)
    (self' : Initiator.t) :
  Initiator.deploy exec (Initiator.__init__ th id, r) = Some (Ret tt, (self', r')) →
  ∃ n, Initiator.name self' = Some n ∧ Py.contains id n = true.
Proof.
  unfold Initiator.deploy. intros H.
  apply bind_ret_inv in H as (? & [s1 r1] & H1 & H). apply lift_self in H1 as ->.
  apply bind_ret_inv in H as (? & [s2 r2] & H2 & H). apply lift_self in H2 as ->.
  apply bind_ret_inv in H as (? & [s3 r3] & H3 & H). apply lift_self in H3 as ->.
  apply bind_ret_inv in H as (? & [s4 r4] & H4 & H). apply lift_self in H4 as ->.
  apply bind_ret_inv in H as (self & s5 & H5 & H).
  apply get_self_inv in H5 as [-> ->]. simpl in H.
  apply bind_ret_inv in H as (discovered & [s6 r6] & H6 & H). apply lift_self in H6 as ->.
  apply bind_ret_inv in H as ([] & [s7 r7] & H7 & H).
  apply bind_ret_inv in H as (self & s8 & H8 & H).
  apply get_self_inv in H8 as [-> ->]. simpl in H.
  destruct (Initiator.discover id (Py.split_nl discovered)) as [[n|]|e] eqn:Hd.
  - unfold Initiator.put_name in H7. injection H7 as <- <-.
    exists n. split; [| eapply discover_holds_id; eassumption].
    simpl in H. destruct n as [|c n]; simpl in H; [discriminate |].
    apply bind_ret_inv in H as (? & [s9 r9] & H9 & H). apply lift_self in H9 as ->.
    injection H as <- <-. reflexivity.
  - injection H7 as <- <-. simpl in H. discriminate.
  - discriminate.
Qed.

Lemma run_ret_inv (exec : host) (args : list arg) (r r' : remote) (out : string) :
  run exec args r = Some (Ret out, r') → exec args r = (0%nat, out, r').
Proof.
  unfold run. destruct (exec args r) as [[code o] r1].
  destruct code; intros H; [| discriminate]. now injection H as <- <-.
Qed.

(** A step of [deploy] that only talks to the host: when it raises, the
    object is as before; when it returns, the deploy goes on with the
    object as before. *)
Lemma lift_step {A B} (m : M remote A) (k : A → M (Initiator.t * remote) B)
    (self self' : Initiator.t) (r r' : remote) (o : outcome B) :
  (Initiator.lift m ≫= k) (self, r) = Some (o, (self', r')) →
  (∃ e, o = Raise e ∧ self' = self) ∨
  (∃ a r1, k a (self, r1) = Some (o, (self', r'))).
Proof.
  intros H. apply bind_some_inv in H as [(a & [s1 r1] & H1 & H) | (e & H1 & ->)].
  - apply lift_self in H1 as ->. right. eauto.
  - apply lift_self in H1 as ->. left. eauto.
Qed.

(** What a deploy on a freshly built initiator leaves in [name], however
    the deploy ends: nothing, and then the deploy raised; or the name the
    discovery loop returned on the output of the discovery command. *)
Lemma deploy_name (exec : host) (th id : string) (r r' : remote)
    (o : outcome unit) (self' : Initiator.t) :
  Initiator.deploy exec (Initiator.__init__ th id, r) = Some (o, (self', r')) →
  match Initiator.name self' with
  | None => o ≠ Ret tt
  | Some n =>
      ∃ discovered rd rd',
        exec (discovery_cmd th) rd = (0%nat, discovered, rd') ∧
        Initiator.discover id (Py.split_nl discovered) = Ret (Some n)
  end.
Proof.
  unfold Initiator.deploy. intros H.
  apply lift_step in H as [(e & -> & ->) | (? & r1 & H)]; [discriminate |].
  apply lift_step in H as [(e & -> & ->) | (? & r2 & H)]; [discriminate |].
  apply lift_step in H as [(e & -> & ->) | (? & r3 & H)]; [discriminate |].
  apply lift_step in H as [(e & -> & ->) | (? & r4 & H)]; [discriminate |].
  apply bind_some_inv in H as [(self & s5 & H5 & H) | (e & H5 & _)];
    [| discriminate].
  apply get_self_inv in H5 as [-> ->]. cbn [fst Initiator.target_host
    Initiator.iqn_id Initiator.__init__] in H.
  fold (discovery_cmd th) in H.
  apply bind_some_inv in H as [(discovered & [s6 r6] & H6 & H) | (e & H6 & ->)].
  2:{ apply lift_self in H6 as ->. discriminate. }
  pose proof (lift_self _ _ _ _ _ _ H6) as ->.
  assert (Hrun : exec (discovery_cmd th) r4 = (0%nat, discovered, r6)).
  { unfold Initiator.lift in H6. cbv beta iota in H6.
    destruct (run exec (discovery_cmd th) r4) as [[o1 r1']|] eqn:Hr; [| discriminate].
    cbn [mbind option_bind] in H6. injection H6 as -> ->.
    now apply run_ret_inv. }
  destruct (Initiator.discover id (Py.split_nl discovered)) as [[n|]|e] eqn:Hd.
  - apply bind_some_inv in H as [([] & s7 & H7 & H) | (e & H7 & _)];
      [| discriminate].
    unfold Initiator.put_name in H7. injection H7 as <-.
    apply bind_some_inv in H as [(self & s8 & H8 & H) | (e & H8 & _)];
      [| discriminate].
    apply get_self_inv in H8 as [-> ->].
    assert (Hname : Initiator.name self' = Some n).
    { cbn [fst Initiator.name Initiator.set_name] in H.
      destruct (Py.falsy (Some n)).
      - now injection H as <- <- <-.
      - destruct (lift_step _ _ _ _ _ _ _ H) as [(e & _ & ->) | (? & r9 & H9)];
          [reflexivity |].
        now injection H9 as <- <- <-. }
    rewrite Hname. eauto.
  - apply bind_some_inv in H as [([] & s7 & H7 & H) | (e & H7 & _)];
      [| discriminate].
    injection H7 as <-.
    apply bind_some_inv in H as [(self & s8 & H8 & H) | (e & H8 & _)];
      [| discriminate].
    apply get_self_inv in H8 as [-> ->].
    cbn [fst Initiator.name Initiator.__init__ Py.falsy] in H.
    injection H as <- <- <-. discriminate.
  - apply bind_some_inv in H as [([] & s7 & H7 & H) | (e' & H7 & ->)];
      [discriminate |].
    injection H7 as <- <- <-. discriminate.
Qed.

(** C9 (amended).  [logout] has no guard: whatever name is stored, it
    sends the logout command for it and raises only when the host refuses
    the command.  On every initiator whose name is unset the name sent is
    Python's [None]; a freshly built initiator is one.  A deploy on a
    freshly built initiator, however it ends, leaves the name unset only if
    it raised; otherwise the name it leaves is the one the discovery loop
    returned on the output of the discovery command, which holds the
    requested id, and that is the name [logout] sends: in particular after
    a deploy that returned, but also after one that failed at the login. *)
Theorem logout_sends_stored_name (exec : host) :
  (∀ self r,
     Initiator.logout exec (self, r) =
     let '(code, _, r') := exec (logout_cmd (Initiator.name self)) r in
     Some (match code with O => Ret tt | S _ => Raise (ErrorReturnCode code) end,
           (self, r'))) ∧
  (∀ self, Initiator.name self = None →
           logout_cmd (Initiator.name self) =
           [Str "iscsiadm"; Str "-m"; Str "node"; Str "-n"; PyNone; Str "--logout"]) ∧
  (∀ th id, Initiator.name (Initiator.__init__ th id) = None) ∧
  (∀ th id r o self' r',
     Initiator.deploy exec (Initiator.__init__ th id, r) = Some (o, (self', r')) →
     match Initiator.name self' with
     | None => o ≠ Ret tt
     | Some n =>
         (∃ discovered rd rd',
            exec (discovery_cmd th) rd = (0%nat, discovered, rd') ∧
            Initiator.discover id (Py.split_nl discovered) = Ret (Some n)) ∧
         Py.contains id n = true ∧
         logout_cmd (Initiator.name self') =
         [Str "iscsiadm"; Str "-m"; Str "node"; Str "-n"; Str n; Str "--logout"]
     end).
Proof.
  split; [| split; [| split]].
  - intros self r. apply logout_unfold.
  - intros self H. now rewrite H.
  - reflexivity.
  - intros th id r o self' r' H.
    pose proof (deploy_name exec th id r r' o self' H) as Hname.
    destruct (Initiator.name self') as [n|]; [| exact Hname].
    destruct Hname as (discovered & rd & rd' & Hrun & Hd).
    split; [eauto |]. split; [| reflexivity].
    eapply discover_holds_id. eassumption.
Qed.

Lemma logout_sends_stored_name_witness :
  (∃ discovered rd rd',
     discovery_host two_targets (discovery_cmd "10.0.0.1") rd = (0%nat, discovered, rd') ∧
     Initiator.discover "id02" (Py.split_nl discovered)
     = Ret (Some "iqn.2015-01.qa.cloud.suse.de:id02")) ∧
  Py.contains "id02" "iqn.2015-01.qa.cloud.suse.de:id02" = true ∧
  logout_cmd (Some "iqn.2015-01.qa.cloud.suse.de:id02") =
  [Str "iscsiadm"; Str "-m"; Str "node"; Str "-n";
   Str "iqn.2015-01.qa.cloud.suse.de:id02"; Str "--logout"].
Proof.
  apply (proj2 (proj2 (proj2 (logout_sends_stored_name (discovery_host two_targets))))
           "10.0.0.1" "id02" (mk_remote [("/etc/iscsid.conf", "")]) (Ret tt)
           (Initiator.set_name (Some "iqn.2015-01.qa.cloud.suse.de:id02")
              (Initiator.__init__ "10.0.0.1" "id02"))
           (mk_remote [("/etc/iscsid.conf", unlines Initiator.iscsid_lines)])).
  vm_compute. reflexivity.
Defined.

(** A deploy that resolves the name and is then refused at the login
    raises with the name stored; [logout] on that initiator sends the
    logout command for the stored name. *)
Example logout_after_refused_login :
  let self' := Initiator.set_name (Some "iqn.2015-01.qa.cloud.suse.de:id02")
                 (Initiator.__init__ "10.0.0.1" "id02") in
  ∃ r',
    Initiator.deploy (login_refusing_host two_targets)
      (Initiator.__init__ "10.0.0.1" "id02", mk_remote [("/etc/iscsid.conf", "")])
    = Some (Raise (ErrorReturnCode 8), (self', r')) ∧
    Initiator.logout (login_refusing_host two_targets) (self', r')
    = Some (Raise (ErrorReturnCode 8), (self', r')) ∧
    logout_cmd (Initiator.name self') =
    [Str "iscsiadm"; Str "-m"; Str "node"; Str "-n";
     Str "iqn.2015-01.qa.cloud.suse.de:id02"; Str "--logout"].
Proof. eexists. repeat split; vm_compute; reflexivity. Qed.

(** ** Target: export check and loop creation (C6, C7) *)

(** C6.  When every step of [deploy] before the final check went through
    and the export table read at the end does not hold the target's IQN,
    [deploy] raises the verification error (and the check itself changes
    nothing on the host). *)
Theorem deploy_unexported_raises (exec : host) (self : Target.t) (r r1 : remote)
    (result : string) :
  Target.deploy_steps exec self r = Some (Ret tt, r1) →
  files r1 !! "/proc/net/iet/volume" = Some result →
  Py.contains (Target.iqn self) result = false →
  Target.deploy exec self r = Some (Raise DeploymentVerificationError, r1).
Proof.
  intros Hsteps Hread Habsent.
  unfold Target.deploy. rewrite bind_unfold, Hsteps.
  unfold Target.check_exported. rewrite bind_unfold.
  unfold cat. change (plain_path "/proc/net/iet/volume") with true. cbv iota.
  rewrite Hread, Habsent. reflexivity.
Qed.

Lemma deploy_unexported_raises_witness :
  Target.deploy quiet_host sdc_target
    (mk_remote [("/etc/ietd.conf", ""); (Target.boot_local, "");
                ("/proc/net/iet/volume", "")])
  = Some (Raise DeploymentVerificationError,
          mk_remote [("/etc/ietd.conf", unlines
                        ["IncomingUser user passwd";
                         "Target iqn.2015-01.qa.cloud.suse.de:id01";
                         String TAB "Lun 0 Path=/dev/sdc"]);
                     (Target.boot_local,
                        unlines ["losetup /dev/sdc None"; "rciscsitarget restart"]);
                     ("/proc/net/iet/volume", "")]).
Proof.
  apply (deploy_unexported_raises quiet_host sdc_target _ _ "");
    vm_compute; reflexivity.
Defined.

Lemma find_loop_scan_found (loop : string) (before after : list string)
    (line lfile : string) :
  forallb (other_device loop) before = true →
  Target.pattern_match line = Some (loop, lfile) →
  Target.find_loop_scan loop (before ++ line :: after) = Ret (Some (loop, lfile)).
Proof.
  intros Hbefore Hline. induction before as [|l ls IH]; simpl.
  - now rewrite Hline, String.eqb_refl.
  - simpl in Hbefore. apply andb_true_iff in Hbefore as [Hl Hls].
    unfold other_device in Hl.
    destruct (Target.pattern_match l) as [[d f]|]; [| discriminate].
    apply negb_true_iff in Hl. rewrite Hl. auto.
Qed.

(** C7.  When the listing of [losetup -a] shows the loop path bound (its
    line is reached by the scan, the lines before it being lines of other
    devices), [create_loop] raises the already-bound error naming the
    device and its backing file, and the host is exactly as before: no
    command that changes it was issued, whatever the host would have done
    with one. *)
Theorem create_loop_already_bound (exec : host) (loop path : string) (size : Z)
    (r : remote) (before after : list string) (line lfile : string) :
  losetup_a r = (before ++ line :: after)%list →
  forallb (other_device loop) before = true →
  Target.pattern_match line = Some (loop, lfile) →
  Target.create_loop exec loop path size r
  = Some (Raise (AlreadyBoundError loop lfile), r).
Proof.
  intros Hlisting Hbefore Hline.
  unfold Target.create_loop. rewrite bind_unfold.
  unfold Target.find_loop. rewrite Hlisting.
  rewrite (find_loop_scan_found _ _ _ _ _ Hbefore Hline). reflexivity.
Qed.

Lemma create_loop_already_bound_witness :
  Target.create_loop wiping_host "/dev/loop0" "/tmp/new.loop" 1 two_loops
  = Some (Raise (AlreadyBoundError "/dev/loop0" "/tmp/id01-iscsi.loop"), two_loops).
Proof.
  apply (create_loop_already_bound wiping_host "/dev/loop0" "/tmp/new.loop" 1 two_loops
           ["/dev/loop1: [0803]:99 (/tmp/other.loop)"] []
           "/dev/loop0: [0803]:1234 (/tmp/id01-iscsi.loop)" "/tmp/id01-iscsi.loop");
    reflexivity.
Defined.

(** ** append_cfg only appends (C10) *)

Lemma append_cfg_loop_appends (fname cfg : string) (lines : list string) :
  ∀ (r r' : remote) (o : outcome unit) (cur : string),
    files r !! fname = Some cur →
    ISCSI.append_cfg_loop fname cfg lines r = Some (o, r') →
    (∃ added, files r' !! fname = Some (cur +:+ added)) ∧
    (∀ p, p ≠ fname → files r' !! p = files r !! p) ∧
    losetup_a r' = losetup_a r.
Proof.
  induction lines as [|line rest IH]; intros r r' o cur Hcur H; simpl in H.
  - injection H as <- <-. split; [| auto]. exists "". now rewrite app_nil_r_s.
  - destruct (re_search_line line cfg) as [[]|]; [eauto | | discriminate].
    apply bind_some_inv in H as [([] & r1 & Hecho & H) | (e & Hecho & _)].
    + unfold echo_append in Hecho.
      destruct (plain_path fname); [| discriminate].
      destruct (echo_out false line) as [out|]; [| discriminate].
      simpl in Hecho. injection Hecho as <-.
      rewrite Hcur in H. simpl in H.
      eapply IH in H as ((added & Hadded) & Hframe & Hloops).
      2:{ simpl. apply lookup_insert_eq. }
      split; [| split].
      * exists (out +:+ added). now rewrite <- app_assoc_s.
      * intros p Hp. rewrite (Hframe p Hp). simpl. now apply lookup_insert_ne.
      * exact Hloops.
    + unfold echo_append in Hecho.
      destruct (plain_path fname); [| discriminate].
      destruct (echo_out false line); discriminate.
Qed.



Lemma write_same (p c : string) (r : remote) :
  files r !! p = Some c → write p c r = r.
Proof.
  intros H. destruct r as [f l]. unfold write, set_files. simpl in *.
  f_equal. now apply insert_id.
Qed.

Lemma write_write (p c1 c2 : string) (r : remote) :
  write p c2 (write p c1 r) = write p c2 r.
Proof.
  destruct r as [f l]. unfold write, set_files. simpl.
  f_equal. apply insert_insert_eq.
Qed.

Lemma files_write (p c : string) (r : remote) : files (write p c r) !! p = Some c.
Proof. simpl. apply lookup_insert_eq. Qed.

(** ** remove_cfg: verify, then keep or revert (C2) *)

Lemma cat_ok (p c : string) (r : remote) :
  plain_path p = true → files r !! p = Some c → cat p r = Some (Ret c, r).
Proof. intros Hp Hc. unfold cat. now rewrite Hp, Hc. Qed.

Lemma cp_a_ok (src dst c : string) (r : remote) :
  plain_path src = true → plain_path dst = true → files r !! src = Some c →
  cp_a src dst r = Some (Ret tt, set_files (<[dst := c]>) r).
Proof. intros Hs Hd Hc. unfold cp_a. now rewrite Hs, Hd, Hc. Qed.

Lemma mv_ok (src dst c : string) (r : remote) :
  plain_path src = true → plain_path dst = true → files r !! src = Some c →
  mv src dst r = Some (Ret tt, set_files (λ f, <[dst := c]> (delete src f)) r).
Proof. intros Hs Hd Hc. unfold mv. now rewrite Hs, Hd, Hc. Qed.

Lemma rm_ok (p c : string) (r : remote) :
  plain_path p = true → files r !! p = Some c →
  rm p r = Some (Ret tt, set_files (delete p) r).
Proof. intros Hp Hc. unfold rm. now rewrite Hp, Hc. Qed.

Lemma echo_n_to_ok (args p out : string) (r : remote) :
  plain_path p = true → echo_out true args = Some out →
  echo_n_to args p r = Some (Ret tt, set_files (<[p := out]>) r).
Proof. intros Hp Ho. unfold echo_n_to. now rewrite Hp, Ho. Qed.

Lemma backup_paths (fname : string) :
  plain_path fname = true →
  plain_path (fname +:+ ".BACKUP") = true ∧ plain_path (fname +:+ ".EDIT") = true ∧
  fname +:+ ".BACKUP" ≠ fname ∧ fname +:+ ".EDIT" ≠ fname ∧
  fname +:+ ".EDIT" ≠ fname +:+ ".BACKUP".
Proof.
  intros Hp. repeat split.
  - now apply plain_path_app.
  - now apply plain_path_app.
  - apply app_not_self. discriminate.
  - apply app_not_self. discriminate.
  - intros H. apply app_inj_l in H. discriminate.
Qed.

(** The run of [remove_cfg] once the file is read and the write has left
    [written] in it: both ways out, with the host each leaves. *)
Lemma remove_cfg_outcome (fname : string) (lines : list string) (r : remote)
    (cfg0 written : string) :
  plain_path fname = true →
  files r !! fname = Some cfg0 →
  echo_out true (dq +:+ ISCSI.remove_lines cfg0 lines +:+ dq) = Some written →
  let cfg := ISCSI.remove_lines cfg0 lines in
  let fbackup := fname +:+ ".BACKUP" in
  let fedit := fname +:+ ".EDIT" in
  let r2 := write fname written (write fbackup cfg0 r) in
  ISCSI.remove_cfg fname lines r =
  if String.eqb cfg written
  then Some (Ret tt, set_files (delete fbackup) r2)
  else Some (Raise (EditVerificationError fedit),
             set_files (λ f, <[fname := cfg0]> (delete fbackup f)) (write fedit written r2)).
Proof.
  intros Hp Hcfg0 Hwrite cfg fbackup fedit r2.
  destruct (backup_paths fname Hp) as (Hpb & Hpe & Hbn & Hen & Heb).
  fold fbackup fedit in Hpb, Hpe, Hbn, Hen, Heb.
  assert (Hr2 : files r2 !! fname = Some written) by apply files_write.
  assert (Hr2b : files r2 !! fbackup = Some cfg0).
  { simpl. rewrite lookup_insert_ne by congruence. apply lookup_insert_eq. }
  unfold ISCSI.remove_cfg. rewrite bind_unfold, (cat_ok _ _ _ Hp Hcfg0).
  fold cfg fbackup fedit.
  rewrite bind_unfold, (cp_a_ok _ _ _ _ Hp Hpb Hcfg0).
  rewrite bind_unfold, (echo_n_to_ok _ _ _ _ Hp Hwrite).
  fold (write fbackup cfg0 r). fold (write fname written (write fbackup cfg0 r)).
  fold r2. rewrite bind_unfold, (cat_ok _ _ _ Hp Hr2).
  destruct (String.eqb cfg written).
  - change (negb true) with false. cbv iota. now rewrite (rm_ok _ _ _ Hpb Hr2b).
  - change (negb false) with true. cbv iota.
    rewrite bind_unfold, (cp_a_ok _ _ _ _ Hp Hpe Hr2).
    fold (write fedit written r2).
    assert (Hr3b : files (write fedit written r2) !! fbackup = Some cfg0).
    { simpl. rewrite lookup_insert_ne by congruence.
      rewrite lookup_insert_ne by congruence. apply lookup_insert_eq. }
    rewrite bind_unfold, (mv_ok _ _ _ _ Hpb Hp Hr3b). reflexivity.
Qed.



(** The other branch on a script the shell writes back as it is. *)
Example remove_cfg_match_example :
  ISCSI.remove_cfg Target.boot_local [Target.restart_line]
    (mk_remote [(Target.boot_local, unlines ["#! /bin/sh"; "rciscsitarget restart"])])
  = Some (Ret tt, mk_remote [(Target.boot_local, unlines ["#! /bin/sh"])]).
Proof. vm_compute. reflexivity. Qed.

(** ** SSH: the password watcher and the trust flag (C8) *)

(** One step of the watcher answers at most once, and exactly when the
    text gathered so far ends with the prompt. *)
Lemma _interact_answers (password aggregated : string) (char : ascii) :
  (SSH._interact password aggregated char).2 =
  if Py.endswith (aggregated +:+ String char "") "Password: "
  then [password +:+ nl] else [].
Proof.
  unfold SSH._interact.
  destruct (Py.endswith _ _); [reflexivity |].
  destruct (Ascii.eqb char LF); reflexivity.
Qed.

(** [ssh_copy_id] never changes the session object: in particular the
    flag [_copy_id] keeps its value. *)
Lemma ssh_copy_id_keeps_self (proc : SSH.copier) (self self' : SSH.t)
    (log log' : list SSH.exchange) (o : outcome unit) :
  SSH.ssh_copy_id proc (self, log) = Some (o, (self', log')) → self' = self.
Proof.
  unfold SSH.ssh_copy_id.
  destruct (SSH._copy_id self); [intros H; now injection H |].
  destruct (proc _ _) as [[|code] out]; intros H; now injection H.
Qed.

(** [connect] never sets the flag either. *)
Lemma connect_keeps_flag (proc : SSH.copier) (self self' : SSH.t)
    (log log' : list SSH.exchange) (o : outcome string) :
  SSH.connect proc (self, log) = Some (o, (self', log')) →
  SSH._copy_id self' = SSH._copy_id self.
Proof.
  unfold SSH.connect. intros H.
  apply bind_some_inv in H as [([s0 l0] & s1 & H0 & H) | (e & H0 & _)];
    [| discriminate].
  injection H0 as <- <- <-.
  apply bind_some_inv in H as [([] & [s2 l2] & H2 & H) | (e & H2 & _)].
  - assert (s2 = self) as ->.
    { destruct (negb (SSH._copy_id self)).
      - eapply ssh_copy_id_keeps_self; eassumption.
      - now injection H2. }
    injection H as <- <- <-. reflexivity.
  - destruct (negb (SSH._copy_id self)).
    + apply ssh_copy_id_keeps_self in H2. now subst.
    + discriminate.
Qed.

(** C8 (the code departs from it).  The exchange answers the password
    prompt once, and it succeeds; yet the flag [_copy_id] is still unset
    afterwards ([ssh_copy_id] has no assignment to it), and a second
    [connect] on the same session runs the whole exchange again.  Only the
    cached connection spares later remote operations the exchange. *)
Lemma trust_flag_never_set :
  let session := SSH.__init__ "192.168.124.10" "root" "linux" in
  ∃ s1 s2 ex,
    SSH.connect asking_copier (session, []) = Some (Ret "root@192.168.124.10", (s1, [ex])) ∧
    SSH.ex_stdin ex = ["linux" +:+ nl] ∧
    SSH._copy_id s1 = false ∧
    SSH.connect asking_copier (s1, [ex]) = Some (Ret "root@192.168.124.10", (s2, [ex; ex])) ∧
    SSH.__getattr__ asking_copier (s1, [ex]) = Some (Ret (Some "root@192.168.124.10"), (s1, [ex])).
Proof.
  do 3 eexists. repeat split; vm_compute; reflexivity.
Qed.

(** ** append_cfg on newline-terminated files (C1) *)

Lemma re_compile_nl_free (line : string) :
  ∀ r, no_nl line = true → re_compile line = Some r → re_nl_free r = true.
Proof.
  induction line as [|c line IH]; intros r Hnl Hc; simpl in *.
  - injection Hc as <-. reflexivity.
  - apply andb_true_iff in Hnl as [Hc1 Hline].
    destruct (re_special c); [discriminate |].
    destruct (re_compile line) as [r'|]; [| discriminate].
    simpl in Hc. injection Hc as <-. simpl.
    rewrite (IH r' Hline eq_refl), andb_true_r.
    destruct (Ascii.eqb c "."); [reflexivity |].
    destruct (Ascii.eqb c LF); [discriminate | reflexivity].
Qed.

(** A line without newline, read as a pattern, matches itself. *)
Lemma re_match_self (line : string) :
  ∀ r, no_nl line = true → re_compile line = Some r → re_match_here r line = true.
Proof.
  induction line as [|c line IH]; intros r Hnl Hc; simpl in *.
  - injection Hc as <-. reflexivity.
  - apply andb_true_iff in Hnl as [Hc1 Hline].
    destruct (re_special c); [discriminate |].
    destruct (re_compile line) as [r'|]; [| discriminate].
    simpl in Hc. injection Hc as <-. simpl.
    rewrite (IH r' Hline eq_refl), andb_true_r.
    destruct (Ascii.eqb c "."); simpl; [exact Hc1 | apply Ascii.eqb_refl].
Qed.

(** A pattern that cannot take a newline sees only the first line. *)
Lemma re_match_here_line (r : list re_atom) :
  ∀ l rest, re_nl_free r = true → no_nl l = true →
            re_match_here r (l +:+ nl +:+ rest) = re_match_here r l.
Proof.
  induction r as [|a r IH]; intros l rest Hr Hl.
  - destruct l as [|c l]; reflexivity.
  - simpl in Hr. apply andb_true_iff in Hr as [Ha Hr].
    destruct l as [|c l].
    + destruct a as [x|]; simpl.
      * apply negb_true_iff in Ha. now rewrite Ha.
      * reflexivity.
    + simpl in Hl. apply andb_true_iff in Hl as [_ Hl].
      change (re_match_here (a :: r) (String c l +:+ nl +:+ rest))
        with (re_atom_ok a c && re_match_here r (l +:+ nl +:+ rest)).
      now rewrite (IH l rest Hr Hl).
Qed.

Lemma re_search_bol_line (r : list re_atom) (l rest : string) :
  ∀ bol, no_nl l = true →
         re_search_bol bol r (l +:+ nl +:+ rest)
         = (bol && re_match_here r (l +:+ nl +:+ rest)) || re_search_bol true r rest.
Proof.
  induction l as [|c l IH]; intros bol Hl.
  - reflexivity.
  - simpl in Hl. apply andb_true_iff in Hl as [Hc Hl].
    apply negb_true_iff in Hc.
    change (re_search_bol bol r (String c l +:+ nl +:+ rest))
      with ((bol && re_match_here r (String c l +:+ nl +:+ rest)) ||
            re_search_bol (Ascii.eqb c LF) r (l +:+ nl +:+ rest)).
    rewrite Hc, (IH false Hl). reflexivity.
Qed.

(** Searching a newline-terminated text is searching its lines, and the
    empty line after the last newline. *)
Lemma re_search_unlines (r : list re_atom) (ls : list string) :
  re_nl_free r = true → forallb no_nl ls = true →
  re_search_bol true r (unlines ls)
  = existsb (re_match_here r) ls || re_match_here r "".
Proof.
  intros Hr. induction ls as [|l ls IH]; intros Hls.
  - simpl. now rewrite orb_false_r.
  - simpl in Hls. apply andb_true_iff in Hls as [Hl Hls].
    change (unlines (l :: ls)) with (l +:+ nl +:+ unlines ls).
    change (existsb (re_match_here r) (l :: ls))
      with (re_match_here r l || existsb (re_match_here r) ls).
    rewrite (re_search_bol_line r l (unlines ls) true Hl).
    rewrite (re_match_here_line r l (unlines ls) Hr Hl), (IH Hls).
    now rewrite orb_assoc.
Qed.

Lemma good_line_inv (l : string) :
  good_line l = true →
  no_nl l = true ∧ echo_out false l = Some (l +:+ nl) ∧ ∃ r, re_compile l = Some r.
Proof.
  unfold good_line. intros H.
  apply andb_true_iff in H as [H Hre]. apply andb_true_iff in H as [Hnl Hecho].
  split; [assumption |]. split.
  - destruct (echo_out false l) as [out|]; [| discriminate].
    apply String.eqb_eq in Hecho. now subst.
  - destruct (re_compile l) as [r|]; [eauto | discriminate].
Qed.

(** On a good line the search has an answer, the one of the line-wise
    search. *)
Lemma re_search_line_unlines (l : string) (ls : list string) :
  good_line l = true → forallb no_nl ls = true →
  re_search_line l (unlines ls)
  = Some (existsb (line_matches l) ls || line_matches l "").
Proof.
  intros Hl Hls. apply good_line_inv in Hl as (Hnl & _ & r & Hr).
  unfold re_search_line, line_matches. rewrite Hr. simpl.
  rewrite (re_search_unlines r ls (re_compile_nl_free l r Hnl Hr) Hls).
  reflexivity.
Qed.

Lemma line_matches_self (l : string) : good_line l = true → line_matches l l = true.
Proof.
  intros Hl. apply good_line_inv in Hl as (Hnl & _ & r & Hr).
  unfold line_matches. rewrite Hr. now apply re_match_self.
Qed.

Lemma echo_append_ok (line p cur : string) (r : remote) :
  plain_path p = true → echo_out false line = Some (line +:+ nl) →
  files r !! p = Some cur →
  echo_append line p r = Some (Ret tt, write p (cur +:+ line +:+ nl) r).
Proof.
  intros Hp Hecho Hcur. unfold echo_append. rewrite Hp, Hecho, Hcur. reflexivity.
Qed.

(** The loop of [append_cfg] on good lines: it appends, in order, the
    lines that found nothing in the text read before the loop. *)
Lemma append_cfg_loop_spec (fname cfg : string) (L : list string) :
  ∀ (r : remote) (cur : string),
    plain_path fname = true → forallb good_line L = true →
    files r !! fname = Some cur →
    ISCSI.append_cfg_loop fname cfg L r
    = Some (Ret tt, write fname (cur +:+ unlines (List.filter (unmatched cfg) L)) r).
Proof.
  induction L as [|l L IH]; intros r cur Hp HL Hcur.
  - simpl. rewrite app_nil_r_s, (write_same _ _ _ Hcur). reflexivity.
  - simpl in HL. apply andb_true_iff in HL as [Hl HL].
    destruct (good_line_inv l Hl) as (Hnl & Hecho & rx & Hrx).
    simpl. unfold unmatched at 1.
    unfold re_search_line at 1 2. rewrite Hrx. simpl.
    destruct (re_search_bol true rx cfg).
    + now apply IH.
    + rewrite bind_unfold, (echo_append_ok l fname cur r Hp Hecho Hcur).
      rewrite (IH _ (cur +:+ l +:+ nl) Hp HL (files_write _ _ _)).
      rewrite write_write.
      change (unlines (l :: List.filter (unmatched cfg) L))
        with (l +:+ nl +:+ unlines (List.filter (unmatched cfg) L)).
      now rewrite !app_assoc_s.
Qed.

Lemma append_cfg_spec (fname cfg : string) (L : list string) (r : remote) :
  plain_path fname = true → forallb good_line L = true →
  files r !! fname = Some cfg →
  ISCSI.append_cfg fname L r
  = Some (Ret tt, write fname (cfg +:+ unlines (List.filter (unmatched cfg) L)) r).
Proof.
  intros Hp HL Hcfg. unfold ISCSI.append_cfg.
  rewrite bind_unfold, (cat_ok _ _ _ Hp Hcfg). now apply append_cfg_loop_spec.
Qed.

Lemma occurrences_app (l : string) (a b : list string) :
  occurrences l (a ++ b) = (occurrences l a + occurrences l b)%nat.
Proof. unfold occurrences. now rewrite List.filter_app, length_app. Qed.

Lemma occurrences_absent (l : string) (ls : list string) :
  ¬ In l ls → occurrences l ls = 0%nat.
Proof.
  unfold occurrences. induction ls as [|x ls IH]; intros Hin; simpl; [reflexivity |].
  destruct (String.eqb_spec l x) as [->|_].
  - exfalso. apply Hin. now left.
  - apply IH. intros H. apply Hin. now right.
Qed.

Lemma occurrences_NoDup (l : string) (ls : list string) :
  List.NoDup ls → In l ls → occurrences l ls = 1%nat.
Proof.
  induction 1 as [|x ls Hx Hnd IH]; intros Hin; [destruct Hin |].
  change (occurrences l (x :: ls)) with (occurrences l ([x] ++ ls)).
  rewrite occurrences_app. unfold occurrences at 1. simpl.
  destruct (String.eqb_spec l x) as [->|Hne].
  - now rewrite (occurrences_absent x ls Hx).
  - destruct Hin as [->|Hin]; [congruence |]. now rewrite (IH Hin).
Qed.

Lemma filter_none {A} (p : A → bool) (l : list A) :
  (∀ x, In x l → p x = false) → List.filter p l = [].
Proof.
  induction l as [|x l IH]; intros H; simpl; [reflexivity |].
  rewrite (H x (or_introl eq_refl)). apply IH. intros y Hy. apply H. now right.
Qed.

(** After the lines that found nothing were appended, every good line of
    [L] finds something. *)
Lemma found_after_append (ls L : list string) (l : string) :
  forallb no_nl ls = true → forallb good_line L = true → In l L →
  forallb no_nl (ls ++ List.filter (unmatched (unlines ls)) L) = true ∧
  re_search_line l (unlines (ls ++ List.filter (unmatched (unlines ls)) L)) = Some true.
Proof.
  intros Hls HL Hin.
  assert (Hgood : ∀ x, In x L → good_line x = true) by now apply forallb_forall.
  assert (Hall : forallb no_nl (ls ++ List.filter (unmatched (unlines ls)) L) = true).
  { rewrite forallb_app, Hls. simpl. apply forallb_forall.
    intros x Hx. apply filter_In in Hx as [Hx _].
    now destruct (good_line_inv x (Hgood x Hx)). }
  split; [exact Hall |].
  rewrite (re_search_line_unlines l _ (Hgood l Hin) Hall). f_equal.
  rewrite existsb_app.
  destruct (unmatched (unlines ls) l) eqn:Hun.
  - assert (Hex : existsb (line_matches l) (List.filter (unmatched (unlines ls)) L) = true).
    { apply existsb_exists. exists l. split.
      - apply filter_In. auto.
      - apply line_matches_self. auto. }
    rewrite Hex. now rewrite orb_true_r.
  - unfold unmatched in Hun.
    rewrite (re_search_line_unlines l ls (Hgood l Hin) Hls) in Hun.
    destruct (existsb (line_matches l) ls || line_matches l "") eqn:Hb; [| discriminate].
    apply orb_true_iff in Hb as [Hb | Hb]; rewrite Hb; [reflexivity |].
    now rewrite !orb_true_r.
Qed.

(** C1 (amended).  On a file that is empty or ends with a newline (the
    text of the lines [ls]), and for lines [L] that have no newline, that
    the remote [echo] prints back unchanged and that are patterns of the
    modelled fragment: [append_cfg] appends, in order, the lines of [L]
    that found no line of the file, a second call with the same lines
    changes nothing, every line of [L] finds a line afterwards, the lines
    the file had keep their number of occurrences, and when [L] has no
    duplicates a line that found nothing before occurs exactly once
    afterwards. *)
Theorem append_cfg_idempotent (fname : string) (ls L : list string) (r : remote) :
  plain_path fname = true →
  forallb no_nl ls = true →
  files r !! fname = Some (unlines ls) →
  forallb good_line L = true →
  let added := List.filter (unmatched (unlines ls)) L in
  let r1 := write fname (unlines (ls ++ added)) r in
  ISCSI.append_cfg fname L r = Some (Ret tt, r1) ∧
  ISCSI.append_cfg fname L r1 = Some (Ret tt, r1) ∧
  (∀ l, In l L → re_search_line l (unlines (ls ++ added)) = Some true) ∧
  (∀ l, In l ls → occurrences l (ls ++ added) = occurrences l ls) ∧
  (List.NoDup L → ∀ l, In l L → unmatched (unlines ls) l = true →
                  occurrences l (ls ++ added) = 1%nat).
Proof.
  intros Hp Hls Hcfg HL added r1.
  assert (Hgood : ∀ x, In x L → good_line x = true) by now apply forallb_forall.
  assert (Hnot : ∀ l, In l ls → In l L → unmatched (unlines ls) l = false).
  { intros l Hinls HinL. unfold unmatched.
    rewrite (re_search_line_unlines l ls (Hgood l HinL) Hls).
    assert (Hex : existsb (line_matches l) ls = true).
    { apply existsb_exists. exists l. split; [assumption |].
      apply line_matches_self. auto. }
    now rewrite Hex. }
  split; [| split; [| split; [| split]]].
  - rewrite (append_cfg_spec fname (unlines ls) L r Hp HL Hcfg).
    unfold r1, added. now rewrite unlines_app.
  - rewrite (append_cfg_spec fname (unlines (ls ++ added)) L r1 Hp HL (files_write _ _ _)).
    rewrite (filter_none (unmatched (unlines (ls ++ added))) L).
    + simpl. rewrite app_nil_r_s. unfold r1. now rewrite write_write.
    + intros x Hx. unfold unmatched.
      destruct (found_after_append ls L x Hls HL Hx) as [_ Hfound].
      fold added in Hfound. now rewrite Hfound.
  - intros l Hl. now destruct (found_after_append ls L l Hls HL Hl).
  - intros l Hl. rewrite occurrences_app.
    rewrite (occurrences_absent l added); [lia |].
    intros Hin. apply filter_In in Hin as [HinL Hun].
    rewrite (Hnot l Hl HinL) in Hun. discriminate.
  - intros Hnd l Hl Hun. rewrite occurrences_app.
    rewrite (occurrences_absent l ls).
    + simpl. apply occurrences_NoDup.
      * now apply List.NoDup_filter.
      * apply filter_In. auto.
    + intros Hin. rewrite (Hnot l Hin Hl) in Hun. discriminate.
Qed.

Lemma append_cfg_idempotent_witness :
  let fname := "/etc/iscsid.conf" in
  let ls := ["# open-iscsi"; "node.startup = manual"] in
  let L := ["node.startup = automatic"; "node.session.auth.authmethod = CHAP"] in
  let r := mk_remote [(fname, unlines ls)] in
  let r1 := write fname (unlines (ls ++ L)) r in
  ISCSI.append_cfg fname L r = Some (Ret tt, r1) ∧
  ISCSI.append_cfg fname L r1 = Some (Ret tt, r1) ∧
  (∀ l, In l L → re_search_line l (unlines (ls ++ L)) = Some true) ∧
  (∀ l, In l ls → occurrences l (ls ++ L) = occurrences l ls) ∧
  (List.NoDup L → ∀ l, In l L → unmatched (unlines ls) l = true →
                  occurrences l (ls ++ L) = 1%nat).
Proof.
  apply (append_cfg_idempotent "/etc/iscsid.conf"
           ["# open-iscsi"; "node.startup = manual"]
           ["node.startup = automatic"; "node.session.auth.authmethod = CHAP"]
           (mk_remote [("/etc/iscsid.conf",
                        unlines ["# open-iscsi"; "node.startup = manual"])]));
    reflexivity.
Defined.

(** C1 (counterexample).  A file that already holds a line twice keeps
    both copies: [append_cfg] finds the line and appends nothing, and the
    line of [L] occurs twice afterwards, not once. *)
Lemma append_cfg_keeps_duplicates :
  let l := "node.startup = automatic" in
  let r := mk_remote [("/etc/iscsid.conf", unlines [l; l])] in
  ISCSI.append_cfg "/etc/iscsid.conf" [l] r = Some (Ret tt, r) ∧
  files r !! "/etc/iscsid.conf" = Some (unlines [l; l]) ∧
  occurrences l (Py.split_nl (unlines [l; l])) = 2%nat.
Proof. repeat split; vm_compute; reflexivity. Qed.

(** Outside the conditions of the amended statement the second call does
    append again: on a file whose last line has no newline, and for the
    quoted line of the target configuration, whose quotes the remote shell
    strips. *)
Example append_cfg_unterminated_file :
  ∃ r1 r2,
    ISCSI.append_cfg "/etc/ietd.conf" ["bar"] (mk_remote [("/etc/ietd.conf", "foo")])
    = Some (Ret tt, r1) ∧
    files r1 !! "/etc/ietd.conf" = Some ("foobar" +:+ nl) ∧
    ISCSI.append_cfg "/etc/ietd.conf" ["bar"] r1 = Some (Ret tt, r2) ∧
    files r2 !! "/etc/ietd.conf" = Some ("foobar" +:+ nl +:+ "bar" +:+ nl).
Proof. do 2 eexists. repeat split; vm_compute; reflexivity. Qed.

Example append_cfg_quoted_line_again :
  ∃ r1 r2,
    ISCSI.append_cfg "/etc/ietd.conf" (Target.ietd_lines sdc_target)
      (mk_remote [("/etc/ietd.conf", "")]) = Some (Ret tt, r1) ∧
    ISCSI.append_cfg "/etc/ietd.conf" (Target.ietd_lines sdc_target) r1
    = Some (Ret tt, r2) ∧
    files r2 !! "/etc/ietd.conf"
    = Some (unlines ["IncomingUser user passwd";
                     "Target iqn.2015-01.qa.cloud.suse.de:id01";
                     String TAB "Lun 0 Path=/dev/sdc";
                     String TAB "Lun 0 Path=/dev/sdc"]).
Proof. do 2 eexists. repeat split; vm_compute; reflexivity. Qed.

(** ** The boot-persistence step (C4) *)

Lemma startswith_app (p rest : string) : Py.startswith p (p +:+ rest) = true.
Proof.
  induction p as [|c p IH]; simpl; [now destruct rest |].
  now rewrite Ascii.eqb_refl, IH.
Qed.

(** At the head of a line, [x] and its newline are found exactly when the
    line is [x]. *)
Lemma startswith_line (x : string) :
  ∀ s rest, no_nl x = true → no_nl s = true →
            Py.startswith (x +:+ nl) (s +:+ nl +:+ rest) = String.eqb s x.
Proof.
  induction x as [|a x IH]; intros s rest Hx Hs.
  - destruct s as [|c s]; [now destruct rest |].
    simpl in Hs. apply andb_true_iff in Hs as [Hc _]. apply negb_true_iff in Hc.
    change (Py.startswith ("" +:+ nl) (String c s +:+ nl +:+ rest))
      with (Ascii.eqb LF c && Py.startswith "" (s +:+ nl +:+ rest)).
    rewrite Ascii.eqb_sym, Hc. reflexivity.
  - simpl in Hx. apply andb_true_iff in Hx as [Ha Hx]. apply negb_true_iff in Ha.
    destruct s as [|c s].
    + simpl. now rewrite Ha.
    + simpl in Hs. apply andb_true_iff in Hs as [_ Hs].
      change (Py.startswith (String a x +:+ nl) (String c s +:+ nl +:+ rest))
        with (Ascii.eqb a c && Py.startswith (x +:+ nl) (s +:+ nl +:+ rest)).
      rewrite (IH s rest Hx Hs). simpl. now rewrite Ascii.eqb_sym.
Qed.

Lemma replace_go_skip (old a rest : string) :
  Py.replace_go old (String.length a) (a +:+ rest) = Py.replace_go old 0 rest.
Proof.
  induction a as [|c a IH]; [reflexivity |]. simpl.
  destruct rest; assumption.
Qed.

(** A line that does not end with [x] is copied. *)
Lemma replace_go_keeps_line (x : string) (s rest : string) :
  no_nl x = true → no_nl s = true → Py.endswith s x = false →
  Py.replace_go (x +:+ nl) 0 (s +:+ nl +:+ rest)
  = s +:+ nl +:+ Py.replace_go (x +:+ nl) 0 rest.
Proof.
  intros Hx. induction s as [|c s IH]; intros Hs Hend.
  - assert (Hne : String.eqb "" x = false) by (destruct x; [discriminate | reflexivity]).
    change (Py.replace_go (x +:+ nl) 0 ("" +:+ nl +:+ rest))
      with (if Py.startswith (x +:+ nl) ("" +:+ nl +:+ rest)
            then Py.replace_go (x +:+ nl) (String.length (x +:+ nl) - 1) rest
            else String LF (Py.replace_go (x +:+ nl) 0 rest)).
    rewrite (startswith_line x "" rest Hx eq_refl), Hne. reflexivity.
  - change (Py.endswith (String c s) x)
      with (String.eqb (String c s) x || Py.endswith s x) in Hend.
    apply orb_false_iff in Hend as [Hne Hend].
    assert (Hs' : no_nl s = true) by (simpl in Hs; now apply andb_true_iff in Hs as [_ ?]).
    change (Py.replace_go (x +:+ nl) 0 (String c s +:+ nl +:+ rest))
      with (if Py.startswith (x +:+ nl) (String c s +:+ nl +:+ rest)
            then Py.replace_go (x +:+ nl) (String.length (x +:+ nl) - 1) (s +:+ nl +:+ rest)
            else String c (Py.replace_go (x +:+ nl) 0 (s +:+ nl +:+ rest))).
    rewrite (startswith_line x (String c s) rest Hx Hs), Hne.
    now rewrite (IH Hs' Hend).
Qed.

(** The line [x] is dropped with its newline. *)
Lemma replace_go_drops_line (x rest : string) :
  Py.replace_go (x +:+ nl) 0 (x +:+ nl +:+ rest) = Py.replace_go (x +:+ nl) 0 rest.
Proof.
  rewrite <- app_assoc_s.
  destruct (x +:+ nl) as [|a old] eqn:Hold.
  - destruct x; discriminate.
  - change (Py.replace_go (String a old) 0 (String a old +:+ rest))
      with (if Py.startswith (String a old) (String a old +:+ rest)
            then Py.replace_go (String a old) (String.length (String a old) - 1) (old +:+ rest)
            else String a (Py.replace_go (String a old) 0 (old +:+ rest))).
    rewrite startswith_app.
    replace (String.length (String a old) - 1)%nat with (String.length old)
      by (simpl; lia).
    apply replace_go_skip.
Qed.

Lemma replace_del_nl (x s : string) :
  Py.replace_del (x +:+ nl) s = Py.replace_go (x +:+ nl) 0 s.
Proof. now destruct x. Qed.

(** On a newline-terminated text whose lines hold [x] as a whole or not at
    their end, filtering [x] out drops the lines equal to [x] and nothing
    else. *)
Lemma remove_lines_unlines (x : string) (ls : list string) :
  no_nl x = true → forallb (removable_from x) ls = true →
  ISCSI.remove_lines (unlines ls) [x] = unlines (List.filter (differs_from x) ls).
Proof.
  intros Hx Hls. unfold ISCSI.remove_lines. simpl. rewrite replace_del_nl.
  induction ls as [|l ls IH]; [reflexivity |].
  simpl in Hls. apply andb_true_iff in Hls as [Hl Hls].
  unfold removable_from in Hl.
  apply andb_true_iff in Hl as [Hl Hsuffix].
  apply andb_true_iff in Hl as [Hl _]. apply andb_true_iff in Hl as [Hnl _].
  change (unlines (l :: ls)) with (l +:+ nl +:+ unlines ls).
  change (List.filter (differs_from x) (l :: ls))
    with (if negb (String.eqb l x) then l :: List.filter (differs_from x) ls
          else List.filter (differs_from x) ls).
  destruct (String.eqb_spec l x) as [Heq|Hne].
  - subst l. change (negb true) with false. cbv iota.
    rewrite replace_go_drops_line. now apply IH.
  - change (negb false) with true. cbv iota.
    change (false || negb (Py.endswith l x)) with (negb (Py.endswith l x)) in Hsuffix.
    apply negb_true_iff in Hsuffix.
    rewrite (replace_go_keeps_line x l (unlines ls) Hx Hnl Hsuffix).
    change (unlines (l :: List.filter (differs_from x) ls))
      with (l +:+ nl +:+ unlines (List.filter (differs_from x) ls)).
    now rewrite (IH Hls).
Qed.

Lemma sh_scan_quoted (text : string) :
  all_dq_literal text = true → sh_scan true (text +:+ dq) = Some (text, true, []).
Proof.
  induction text as [|c text IH]; intros H; [reflexivity |].
  simpl in H. apply andb_true_iff in H as [Hc H].
  assert (Hq : Ascii.eqb c DQUOTE = false).
  { unfold sh_dq_literal in Hc. apply negb_true_iff in Hc.
    now apply orb_false_iff in Hc as [_ ?]. }
  change (sh_scan true (String c text +:+ dq))
    with (if Ascii.eqb c DQUOTE
          then '(h, _, t) ← sh_scan false (text +:+ dq); Some (h, true, t)
          else if sh_dq_literal c
               then '(h, _, t) ← sh_scan true (text +:+ dq); Some (String c h, true, t)
               else None).
  rewrite Hq, Hc, (IH H). reflexivity.
Qed.

(** A text free of the characters that stay special between double quotes
    is written back as it is. *)
Lemma echo_out_quoted (text : string) :
  all_dq_literal text = true → Py.startswith "-" text = false →
  echo_out true (dq +:+ text +:+ dq) = Some text.
Proof.
  intros Hlit Hdash. unfold echo_out, sh_words.
  change (sh_scan false (dq +:+ text +:+ dq))
    with ('(h, _, t) ← sh_scan true (text +:+ dq); Some (h, true, t)).
  rewrite (sh_scan_quoted text Hlit).
  change ((if Py.startswith "-" text then None else Some (text +:+ "")) = Some text).
  now rewrite Hdash, app_nil_r_s.
Qed.

Lemma all_dq_literal_app (a b : string) :
  all_dq_literal (a +:+ b) = all_dq_literal a && all_dq_literal b.
Proof.
  induction a as [|c a IH]; simpl; [reflexivity |]. now rewrite IH, andb_assoc.
Qed.

Lemma all_dq_literal_unlines (ls : list string) :
  forallb all_dq_literal ls = true → all_dq_literal (unlines ls) = true.
Proof.
  induction ls as [|l ls IH]; intros H; [reflexivity |].
  simpl in H. apply andb_true_iff in H as [Hl Hls].
  change (unlines (l :: ls)) with (l +:+ nl +:+ unlines ls).
  rewrite !all_dq_literal_app, Hl, (IH Hls). reflexivity.
Qed.

Lemma startswith_dash_unlines (ls : list string) :
  forallb (λ l, negb (Py.startswith "-" l)) ls = true →
  Py.startswith "-" (unlines ls) = false.
Proof.
  destruct ls as [|l ls]; intros H; [reflexivity |].
  simpl in H. apply andb_true_iff in H as [Hl _]. apply negb_true_iff in Hl.
  destruct l as [|c l]; [reflexivity |].
  change (Py.startswith "-" (unlines (String c l :: ls)))
    with (Ascii.eqb "-" c && true).
  change (Py.startswith "-" (String c l)) with (Ascii.eqb "-" c && true) in Hl.
  exact Hl.
Qed.

Lemma forallb_filter {A} (p q : A → bool) (l : list A) :
  forallb p l = true → forallb p (List.filter q l) = true.
Proof.
  intros H. apply forallb_forall. intros x Hx. apply filter_In in Hx as [Hx _].
  revert x Hx. now apply forallb_forall.
Qed.

Lemma removable_from_inv (x l : string) :
  removable_from x l = true →
  no_nl l = true ∧ all_dq_literal l = true ∧ Py.startswith "-" l = false.
Proof.
  unfold removable_from. intros H.
  apply andb_true_iff in H as [H _]. apply andb_true_iff in H as [H Hd].
  apply andb_true_iff in H as [Hn Hq]. apply negb_true_iff in Hd. auto.
Qed.

(** [remove_cfg] with one target line, on a file the remote shell writes
    back as it is: the call returns and the lines equal to the target are
    gone. *)
Lemma remove_cfg_filters (fname x : string) (ls : list string) (r : remote) :
  plain_path fname = true → no_nl x = true →
  forallb (removable_from x) ls = true →
  files r !! fname = Some (unlines ls) →
  ∃ r', ISCSI.remove_cfg fname [x] r = Some (Ret tt, r') ∧
        files r' !! fname = Some (unlines (List.filter (differs_from x) ls)).
Proof.
  intros Hp Hx Hls Hcfg.
  assert (Hinv : ∀ l, In l ls → no_nl l = true ∧ all_dq_literal l = true ∧
                               Py.startswith "-" l = false).
  { intros l Hl. apply (removable_from_inv x). revert l Hl. now apply forallb_forall. }
  set (kept := List.filter (differs_from x) ls).
  assert (Hcut : ISCSI.remove_lines (unlines ls) [x] = unlines kept)
    by now apply remove_lines_unlines.
  assert (Hwrite : echo_out true (dq +:+ ISCSI.remove_lines (unlines ls) [x] +:+ dq)
                   = Some (unlines kept)).
  { rewrite Hcut. apply echo_out_quoted.
    - apply all_dq_literal_unlines, forallb_filter, forallb_forall.
      intros l Hl. now destruct (Hinv l Hl) as (_ & ? & _).
    - apply startswith_dash_unlines, forallb_filter, forallb_forall.
      intros l Hl. destruct (Hinv l Hl) as (_ & _ & Hd). now rewrite Hd. }
  pose proof (remove_cfg_outcome fname [x] r (unlines ls) (unlines kept) Hp Hcfg Hwrite)
    as Hrun.
  cbv zeta in Hrun. rewrite Hcut, String.eqb_refl in Hrun.
  destruct (backup_paths fname Hp) as (_ & _ & Hbn & _).
  eexists. split; [exact Hrun |]. simpl.
  rewrite lookup_delete_ne by congruence. apply lookup_insert_eq.
Qed.

(** A pattern without metacharacters matches only itself. *)
Lemma line_matches_literal (p : string) :
  ∀ l, no_dot p = true → no_nl l = true → line_matches p l = true → l = p.
Proof.
  unfold line_matches.
  induction p as [|c p IH]; intros l Hp Hl H.
  - simpl in H. destruct l as [|d l]; [reflexivity |].
    simpl in H, Hl. rewrite H in Hl. discriminate.
  - simpl in Hp. apply andb_true_iff in Hp as [Hc Hp]. apply negb_true_iff in Hc.
    simpl in H. destruct (re_special c); [discriminate |].
    destruct (re_compile p) as [r|] eqn:Hr; [| discriminate].
    simpl in H. rewrite Hc in H.
    destruct l as [|d l]; [discriminate |].
    simpl in H, Hl. apply andb_true_iff in H as [Hcd H].
    apply andb_true_iff in Hl as [_ Hl].
    apply Ascii.eqb_eq in Hcd. subst d. f_equal. now apply IH.
Qed.

Lemma line_matches_empty (p : string) : p ≠ "" → line_matches p "" = false.
Proof.
  destruct p as [|c p]; [congruence |]. intros _.
  unfold line_matches. simpl. destruct (re_special c); [reflexivity |].
  now destruct (re_compile p).
Qed.

Lemma unmatched_unlines (l : string) (ls : list string) :
  good_line l = true → forallb no_nl ls = true →
  unmatched (unlines ls) l = negb (existsb (line_matches l) ls || line_matches l "").
Proof.
  intros Hl Hls. unfold unmatched. rewrite (re_search_line_unlines l ls Hl Hls).
  now destruct (existsb (line_matches l) ls || line_matches l "").
Qed.

Lemma rebind_line_not_empty (self : Target.t) : Target.rebind_line self ≠ "".
Proof. unfold Target.rebind_line. discriminate. Qed.

Lemma rebind_line_not_restart (self : Target.t) :
  String.eqb (Target.rebind_line self) Target.restart_line = false.
Proof. reflexivity. Qed.

Lemma restart_not_among_kept (ls : list string) :
  forallb no_nl ls = true →
  existsb (line_matches Target.restart_line)
    (List.filter (differs_from Target.restart_line) ls) = false.
Proof.
  intros Hls. apply not_true_iff_false. intros H.
  apply existsb_exists in H as (l & Hl & Hm).
  apply filter_In in Hl as [Hl Hd].
  assert (Hnl : no_nl l = true) by (clear Hm Hd; revert l Hl; now apply forallb_forall).
  apply (line_matches_literal Target.restart_line l eq_refl Hnl) in Hm.
  subst l. discriminate.
Qed.

(** The persistence step of [deploy]: both calls return, and the boot
    script is the one [boot_step] tells. *)
Lemma boot_persistence (self : Target.t) (ls : list string) (r : remote) :
  good_line (Target.rebind_line self) = true →
  forallb (removable_from Target.restart_line) ls = true →
  files r !! Target.boot_local = Some (unlines ls) →
  ∃ r', (ISCSI.remove_cfg Target.boot_local [Target.restart_line];;
         ISCSI.append_cfg Target.boot_local
           [Target.rebind_line self; Target.restart_line]) r = Some (Ret tt, r') ∧
        files r' !! Target.boot_local = Some (unlines (boot_step self ls)).
Proof.
  intros Hgood Hls Hcfg.
  destruct (remove_cfg_filters Target.boot_local Target.restart_line ls r
              eq_refl eq_refl Hls Hcfg) as (rb & Hremove & Hkept).
  set (kept := List.filter (differs_from Target.restart_line) ls) in *.
  assert (Hnl : forallb no_nl ls = true).
  { apply forallb_forall. intros l Hl.
    apply (removable_from_inv Target.restart_line).
    revert l Hl. now apply forallb_forall. }
  assert (Hnlk : forallb no_nl kept = true) by now apply forallb_filter.
  assert (HL : forallb good_line [Target.rebind_line self; Target.restart_line] = true).
  { simpl. rewrite Hgood. reflexivity. }
  rewrite bind_unfold, Hremove.
  rewrite (append_cfg_spec Target.boot_local (unlines kept) _ rb eq_refl HL Hkept).
  eexists. split; [reflexivity |].
  rewrite files_write. f_equal. unfold boot_step. fold kept.
  rewrite unlines_app. f_equal.
  cbn [List.filter].
  rewrite (unmatched_unlines _ kept Hgood Hnlk).
  rewrite (unmatched_unlines Target.restart_line kept eq_refl Hnlk).
  rewrite (line_matches_empty _ (rebind_line_not_empty self)).
  assert (Hr : existsb (line_matches Target.restart_line) kept = false)
    by apply (restart_not_among_kept ls Hnl).
  rewrite Hr, orb_false_r.
  now destruct (existsb (line_matches (Target.rebind_line self)) kept).
Qed.

Lemma run_frame (exec : host) (args : list arg) (r r' : remote) (o : outcome string) :
  boot_frame exec → run exec args r = Some (o, r') →
  files r' !! Target.boot_local = files r !! Target.boot_local.
Proof.
  intros Hframe H. unfold run in H. specialize (Hframe args r).
  destruct (exec args r) as [[code out] r1]. simpl in Hframe.
  destruct code; injection H as <- <-; exact Hframe.
Qed.

Lemma run_unit_frame (exec : host) (args : list arg) (r r' : remote) (o : outcome unit) :
  boot_frame exec → (run exec args;; mret tt) r = Some (o, r') →
  files r' !! Target.boot_local = files r !! Target.boot_local.
Proof.
  intros Hframe H.
  apply bind_some_inv in H as [(out & r1 & Hrun & H) | (e & Hrun & _)].
  - injection H as <- <-. eapply run_frame; eassumption.
  - eapply run_frame; eassumption.
Qed.

Lemma find_loop_same (loop : string) (r r' : remote)
    (o : outcome (option (string * string))) :
  Target.find_loop loop r = Some (o, r') → r' = r.
Proof. unfold Target.find_loop. intros H. now injection H. Qed.

Lemma create_loop_frame (exec : host) (loop path : string) (size : Z)
    (r r' : remote) (o : outcome unit) :
  boot_frame exec → Target.create_loop exec loop path size r = Some (o, r') →
  files r' !! Target.boot_local = files r !! Target.boot_local.
Proof.
  intros Hframe H. unfold Target.create_loop in H.
  apply bind_some_inv in H as [(is_in & r0 & Hfind & H) | (e & Hfind & _)];
    apply find_loop_same in Hfind as ->; [| reflexivity].
  destruct is_in as [[ldev lfile]|]; [injection H as <- <-; reflexivity |].
  apply bind_some_inv in H as [(? & r1 & H1 & H) | (e & H1 & _)];
    [| eapply run_frame; eassumption].
  apply (run_frame _ _ _ _ _ Hframe) in H1. rewrite <- H1.
  apply bind_some_inv in H as [(? & r2 & H2 & H) | (e & H2 & _)];
    [| eapply run_frame; eassumption].
  apply (run_frame _ _ _ _ _ Hframe) in H2. rewrite <- H2.
  apply bind_some_inv in H as [(? & r3 & H3 & H) | (e & H3 & _)];
    [| eapply run_frame; eassumption].
  apply (run_frame _ _ _ _ _ Hframe) in H3. rewrite <- H3.
  apply bind_some_inv in H as [(is_in & r4 & Hfind & H) | (e & Hfind & _)];
    apply find_loop_same in Hfind as ->; [| reflexivity].
  destruct is_in; injection H as <- <-; reflexivity.
Qed.

Lemma append_cfg_frame (fname p : string) (lines : list string) (r r' : remote)
    (o : outcome unit) :
  p ≠ fname → ISCSI.append_cfg fname lines r = Some (o, r') →
  files r' !! p = files r !! p.
Proof.
  intros Hp H. unfold ISCSI.append_cfg in H. rewrite bind_unfold in H.
  unfold cat in H. destruct (plain_path fname); [| discriminate].
  destruct (files r !! fname) as [cfg|] eqn:Hcfg.
  - destruct (append_cfg_loop_appends fname cfg lines r r' o cfg Hcfg H) as (_ & Hf & _).
    now apply Hf.
  - now injection H as <- <-.
Qed.

Lemma check_exported_same (self : Target.t) (r r' : remote) (o : outcome unit) :
  Target.check_exported self r = Some (o, r') → r' = r.
Proof.
  unfold Target.check_exported. rewrite bind_unfold. unfold cat.
  destruct (plain_path _); [| discriminate].
  destruct (files r !! _) as [result|]; [| intros H; now injection H].
  destruct (negb _); intros H; now injection H.
Qed.

(** A deploy that returns has run the persistence step on the boot script
    it found. *)
Lemma deploy_boot_script (exec : host) (self : Target.t) (ls : list string)
    (r r' : remote) :
  boot_frame exec →
  good_line (Target.rebind_line self) = true →
  forallb (removable_from Target.restart_line) ls = true →
  files r !! Target.boot_local = Some (unlines ls) →
  Target.deploy exec self r = Some (Ret tt, r') →
  files r' !! Target.boot_local = Some (unlines (boot_step self ls)).
Proof.
  intros Hframe Hgood Hls Hcfg H. unfold Target.deploy in H.
  apply bind_ret_inv in H as ([] & r7 & Hsteps & Hcheck).
  apply check_exported_same in Hcheck as ->.
  unfold Target.deploy_steps in Hsteps.
  apply bind_ret_inv in Hsteps as ([] & r1 & H1 & Hsteps).
  apply (run_unit_frame _ _ _ _ _ Hframe) in H1.
  apply bind_ret_inv in Hsteps as ([] & r2 & H2 & Hsteps).
  assert (H2' : files r2 !! Target.boot_local = files r1 !! Target.boot_local).
  { destruct (Py.startswith "/dev/loop" (Target.device self)).
    - destruct (Target.path self) as [[|c p]|]; try discriminate.
      eapply create_loop_frame; eassumption.
    - now injection H2 as <-. }
  apply bind_ret_inv in Hsteps as ([] & r3 & H3 & Hsteps).
  apply (append_cfg_frame _ Target.boot_local) in H3; [| discriminate].
  apply bind_ret_inv in Hsteps as ([] & r4 & H4 & Hsteps).
  apply (run_unit_frame _ _ _ _ _ Hframe) in H4.
  apply bind_ret_inv in Hsteps as (? & r5 & H5 & Hsteps).
  apply (run_frame _ _ _ _ _ Hframe) in H5.
  assert (Hcfg5 : files r5 !! Target.boot_local = Some (unlines ls)).
  { rewrite H5, H4, H3, H2', H1. exact Hcfg. }
  destruct (boot_persistence self ls r5 Hgood Hls Hcfg5) as (r6 & Hrun & Hboot).
  rewrite Hsteps in Hrun. injection Hrun as <-. exact Hboot.
Qed.

Lemma boot_ready_inv (self : Target.t) (ls : list string) :
  boot_ready self ls = true →
  good_line (Target.rebind_line self) = true ∧
  removable_from Target.restart_line (Target.rebind_line self) = true ∧
  forallb (removable_from Target.restart_line) ls = true ∧
  (∀ l, In l ls → line_matches (Target.rebind_line self) l = false).
Proof.
  unfold boot_ready. intros H.
  apply andb_true_iff in H as [H Hls]. apply andb_true_iff in H as [Hgood Hrem].
  repeat split; try assumption.
  - apply forallb_forall. intros l Hl.
    apply (proj1 (forallb_forall _ _) Hls) in Hl. now apply andb_true_iff in Hl as [? _].
  - intros l Hl. apply (proj1 (forallb_forall _ _) Hls) in Hl.
    apply andb_true_iff in Hl as [_ Hl]. now apply negb_true_iff in Hl.
Qed.

Lemma filter_filter {A} (p : A → bool) (l : list A) :
  List.filter p (List.filter p l) = List.filter p l.
Proof.
  induction l as [|x l IH]; simpl; [reflexivity |].
  destruct (p x) eqn:Hx; simpl; [rewrite Hx; now f_equal | exact IH].
Qed.

(** The script after the first step, from a ready script. *)
Lemma boot_step_first (self : Target.t) (ls : list string) :
  boot_ready self ls = true →
  boot_step self ls
  = (List.filter (differs_from Target.restart_line) ls ++
     [Target.rebind_line self; Target.restart_line])%list.
Proof.
  intros H. apply boot_ready_inv in H as (_ & _ & _ & Hnone).
  unfold boot_step.
  assert (Hex : existsb (line_matches (Target.rebind_line self))
                  (List.filter (differs_from Target.restart_line) ls) = false).
  { apply not_true_iff_false. intros Hex.
    apply existsb_exists in Hex as (l & Hl & Hm).
    apply filter_In in Hl as [Hl _]. rewrite (Hnone l Hl) in Hm. discriminate. }
  now rewrite Hex.
Qed.

(** That script is a fixed point of the step. *)
Lemma boot_step_next (self : Target.t) (ls : list string) :
  boot_ready self ls = true →
  let final := (List.filter (differs_from Target.restart_line) ls ++
                [Target.rebind_line self; Target.restart_line])%list in
  forallb (removable_from Target.restart_line) final = true ∧
  boot_step self final = final.
Proof.
  intros H final. apply boot_ready_inv in H as (Hgood & Hrem & Hls & _).
  split.
  - unfold final. rewrite forallb_app. apply andb_true_iff. split.
    + now apply forallb_filter.
    + simpl. now rewrite Hrem.
  - unfold boot_step, final.
    rewrite List.filter_app, filter_filter.
    change (List.filter (differs_from Target.restart_line)
              [Target.rebind_line self; Target.restart_line])
      with [Target.rebind_line self].
    rewrite existsb_app. simpl existsb at 2.
    rewrite (line_matches_self _ Hgood), orb_true_r.
    now rewrite <- app_assoc.
Qed.

Lemma deploys_keep_boot_script (exec : host) (self : Target.t) (ls : list string) :
  boot_frame exec → boot_ready self ls = true →
  let final := (List.filter (differs_from Target.restart_line) ls ++
                [Target.rebind_line self; Target.restart_line])%list in
  ∀ n r r',
    files r !! Target.boot_local = Some (unlines final) →
    deploys exec self n r = Some (Ret tt, r') →
    files r' !! Target.boot_local = Some (unlines final).
Proof.
  intros Hframe Hready final.
  destruct (boot_step_next self ls Hready) as [Hrem Hfix]. fold final in Hrem, Hfix.
  destruct (boot_ready_inv self ls Hready) as (Hgood & _).
  induction n as [|n IH]; intros r r' Hcfg H; simpl in H.
  - injection H as <-. exact Hcfg.
  - apply bind_ret_inv in H as ([] & r1 & Hdeploy & H).
    apply (IH r1 r'); [| exact H].
    rewrite (deploy_boot_script exec self final r r1 Hframe Hgood Hrem Hcfg Hdeploy).
    now rewrite Hfix.
Qed.

(** C4 (amended).  On a host whose other commands leave the boot script
    alone, for a target and a newline-terminated boot script that are ready
    for the step ([boot_ready]): after any number [n >= 1] of calls of
    [deploy] that all return, the boot script is its former lines without
    the restart lines, then the re-bind line, then the restart line; it
    holds the restart line once and the re-bind line once. *)
Theorem deploys_one_rebind_one_restart (exec : host) (self : Target.t)
    (ls : list string) (n : nat) (r r' : remote) :
  boot_frame exec →
  boot_ready self ls = true →
  files r !! Target.boot_local = Some (unlines ls) →
  deploys exec self (S n) r = Some (Ret tt, r') →
  let final := (List.filter (differs_from Target.restart_line) ls ++
                [Target.rebind_line self; Target.restart_line])%list in
  files r' !! Target.boot_local = Some (unlines final) ∧
  occurrences Target.restart_line final = 1%nat ∧
  occurrences (Target.rebind_line self) final = 1%nat.
Proof.
  intros Hframe Hready Hcfg H final.
  destruct (boot_ready_inv self ls Hready) as (Hgood & _ & Hls & Hnone).
  split; [| split].
  - simpl in H. apply bind_ret_inv in H as ([] & r1 & Hdeploy & H).
    apply (deploys_keep_boot_script exec self ls Hframe Hready n r1 r'); [| exact H].
    rewrite (deploy_boot_script exec self ls r r1 Hframe Hgood Hls Hcfg Hdeploy).
    now rewrite (boot_step_first self ls Hready).
  - unfold final. rewrite occurrences_app, occurrences_absent.
    + reflexivity.
    + intros Hin. apply filter_In in Hin as [_ Hd]. discriminate.
  - unfold final. rewrite occurrences_app, occurrences_absent.
    + unfold occurrences. cbn [List.filter].
      rewrite String.eqb_refl. reflexivity.
    + intros Hin. apply filter_In in Hin as [Hin _].
      specialize (Hnone _ Hin).
      rewrite (line_matches_self _ Hgood) in Hnone. discriminate.
Qed.

Lemma quiet_host_frame : boot_frame quiet_host.
Proof. intros args s. reflexivity. Qed.

Lemma deploys_one_rebind_one_restart_witness :
  let final := ["#! /bin/sh"; "# local commands"; "losetup /dev/sdc None";
                "rciscsitarget restart"] in
  files (lab_host (unlines ["IncomingUser user passwd";
                            "Target iqn.2015-01.qa.cloud.suse.de:id01";
                            String TAB "Lun 0 Path=/dev/sdc";
                            String TAB "Lun 0 Path=/dev/sdc"])
                  (unlines final)) !! Target.boot_local = Some (unlines final) ∧
  occurrences Target.restart_line final = 1%nat ∧
  occurrences (Target.rebind_line sdc_target) final = 1%nat.
Proof.
  apply (deploys_one_rebind_one_restart quiet_host sdc_target
           ["#! /bin/sh"; "rciscsitarget restart"; "# local commands"] 1
           (lab_host "" (unlines ["#! /bin/sh"; "rciscsitarget restart";
                                  "# local commands"]))).
  - exact quiet_host_frame.
  - vm_compute. reflexivity.
  - vm_compute. reflexivity.
  - vm_compute. reflexivity.
Defined.

(** C4 (counterexample).  The step removes restart lines but never a
    re-bind line: a boot script that holds the re-bind line twice holds it
    twice after a deploy that returns. *)
Lemma deploy_keeps_two_rebind_lines :
  let rebind := Target.rebind_line sdc_target in
  ∃ r', deploys quiet_host sdc_target 1 (lab_host "" (unlines [rebind; rebind]))
        = Some (Ret tt, r') ∧
        files r' !! Target.boot_local
        = Some (unlines [rebind; rebind; Target.restart_line]) ∧
        occurrences rebind
          (Py.split_nl (unlines [rebind; rebind; Target.restart_line])) = 2%nat.
Proof.
  eexists. repeat split; vm_compute; reflexivity.
Qed.

(** * Further properties of the code *)

(** ** Key: the local key pair *)

Lemma pub_differs (nm : string) : nm +:+ ".pub" ≠ nm.
Proof. apply app_not_self. discriminate. Qed.

(** Turns the name [Key(name)] settles on into a variable. *)
Ltac key_name name nm :=
  unfold Key.__init__, Key.clean_key, Key.chmod, Key.remove, Key.key, Key.pub_key;
  cbn [Key.name];
  generalize (if Py.falsy name then ".iscsi_fake_id_dsa" else Py.str name);
  intros nm.

(** X1.  When the private key file does not exist and [ssh-keygen] does
    its work, [Key(name)] returns the key; both files of the pair then exist
    with permission bits 0600 and no other local file has changed. *)
Theorem Key_init_generates (gen : Key.keygen) (name : option string) (fs : Key.lfs) :
  Key.generates gen →
  let self := {| Key.name := if Py.falsy name then ".iscsi_fake_id_dsa" else Py.str name |} in
  fs !! Key.key self = None →
  ∃ fs' c1 c2,
    Key.__init__ gen name fs = (inr self, fs') ∧
    fs' !! Key.key self = Some (Key.mode_0600, c1) ∧
    fs' !! Key.pub_key self = Some (Key.mode_0600, c2) ∧
    ∀ p, p ≠ Key.key self → p ≠ Key.pub_key self → fs' !! p = fs !! p.
Proof.
  intros Hgen. cbv zeta. key_name name nm. intros Hnone.
  pose proof (pub_differs nm) as Hne.
  pose proof (Hgen nm fs) as Hg. rewrite Hnone.
  destruct (gen nm fs) as [code fs1]. cbn [fst snd] in Hg.
  destruct Hg as (-> & [[m1 c1] H1] & [[m2 c2] H2] & Hframe).
  rewrite H1. cbv beta iota zeta.
  rewrite lookup_insert_ne by congruence. rewrite H2. cbv beta iota zeta.
  eexists _, c1, c2. split; [reflexivity |]. repeat split.
  - rewrite lookup_insert_ne by congruence. apply lookup_insert_eq.
  - apply lookup_insert_eq.
  - intros p Hp1 Hp2. rewrite !lookup_insert_ne by congruence. now apply Hframe.
Qed.

Lemma plain_keygen_generates : Key.generates Key.plain_keygen.
Proof.
  intros name fs. unfold Key.plain_keygen. cbn [fst snd].
  pose proof (pub_differs name) as Hne.
  repeat split.
  - rewrite lookup_insert_ne by congruence. rewrite lookup_insert_eq. eauto.
  - rewrite lookup_insert_eq. eauto.
  - intros p Hp1 Hp2. now rewrite !lookup_insert_ne by congruence.
Qed.

Lemma Key_init_generates_witness :
  ∃ fs' c1 c2,
    Key.__init__ Key.plain_keygen None ∅ = (inr {| Key.name := ".iscsi_fake_id_dsa" |}, fs') ∧
    fs' !! ".iscsi_fake_id_dsa" = Some (Key.mode_0600, c1) ∧
    fs' !! ".iscsi_fake_id_dsa.pub" = Some (Key.mode_0600, c2) ∧
    ∀ p, p ≠ ".iscsi_fake_id_dsa" → p ≠ ".iscsi_fake_id_dsa.pub" →
         fs' !! p = (∅ : Key.lfs) !! p.
Proof.
  apply (Key_init_generates Key.plain_keygen None ∅ plain_keygen_generates).
  reflexivity.
Defined.

(** X2.  When both files of the pair exist, [Key(name)] reuses them:
    whatever [ssh-keygen] would do, it is not run; the contents of both
    files stay, their permission bits become 0600. *)
Theorem Key_init_reuses_pair (gen : Key.keygen) (name : option string) (fs : Key.lfs)
    (m1 m2 : N) (c1 c2 : string) :
  let self := {| Key.name := if Py.falsy name then ".iscsi_fake_id_dsa" else Py.str name |} in
  fs !! Key.key self = Some (m1, c1) →
  fs !! Key.pub_key self = Some (m2, c2) →
  Key.__init__ gen name fs
  = (inr self, <[Key.pub_key self := (Key.mode_0600, c2)]>
                 (<[Key.key self := (Key.mode_0600, c1)]> fs)).
Proof.
  cbv zeta. key_name name nm. intros H1 H2.
  pose proof (pub_differs nm) as Hne.
  rewrite !H1. cbv beta iota zeta.
  rewrite lookup_insert_ne by congruence. now rewrite H2.
Qed.

Lemma Key_init_reuses_pair_witness :
  Key.__init__ (λ _ _, (1%nat, ∅)) (Some "id")
    (<["id.pub" := (420%N, "public")]> (<["id" := (420%N, "private")]> ∅))
  = (inr {| Key.name := "id" |},
     <["id.pub" := (Key.mode_0600, "public")]>
       (<["id" := (Key.mode_0600, "private")]>
          (<["id.pub" := (420%N, "public")]> (<["id" := (420%N, "private")]> ∅)))).
Proof.
  apply (Key_init_reuses_pair (λ _ _, (1%nat, ∅)) (Some "id") _ 420%N 420%N
           "private" "public"); reflexivity.
Defined.

(** X3.  When the private key file exists and the public one does not,
    [Key(name)] fails: nothing generates the missing half, and the
    [os.chmod] of the public file raises [OSError], after the private file
    got its permission bits. *)
Theorem Key_init_half_pair_fails (gen : Key.keygen) (name : option string)
    (fs : Key.lfs) (m1 : N) (c1 : string) :
  let self := {| Key.name := if Py.falsy name then ".iscsi_fake_id_dsa" else Py.str name |} in
  fs !! Key.key self = Some (m1, c1) →
  fs !! Key.pub_key self = None →
  Key.__init__ gen name fs
  = (inl (Key.OSError (Key.pub_key self)), <[Key.key self := (Key.mode_0600, c1)]> fs).
Proof.
  cbv zeta. key_name name nm. intros H1 H2.
  pose proof (pub_differs nm) as Hne.
  rewrite !H1. cbv beta iota zeta.
  rewrite lookup_insert_ne by congruence. now rewrite H2.
Qed.

Lemma Key_init_half_pair_fails_witness :
  Key.__init__ Key.plain_keygen (Some "id") (<["id" := (420%N, "private")]> ∅)
  = (inl (Key.OSError "id.pub"), <["id" := (Key.mode_0600, "private")]>
                                   (<["id" := (420%N, "private")]> ∅)).
Proof.
  apply (Key_init_half_pair_fails Key.plain_keygen (Some "id") _ 420%N "private");
    reflexivity.
Defined.

(** The local files after a key was generated and cleaned again. *)
Lemma clean_after_generate (nm : string) (fs fs' : Key.lfs) (x1 x2 : N * string) :
  fs !! nm = None → fs !! (nm +:+ ".pub") = None →
  fs' !! nm = Some x1 → fs' !! (nm +:+ ".pub") = Some x2 →
  (∀ p, p ≠ nm → p ≠ nm +:+ ".pub" → fs' !! p = fs !! p) →
  Key.clean_key {| Key.name := nm |} fs' = (inr tt, fs).
Proof.
  intros H1 H2 Hk Hp Hf. pose proof (pub_differs nm) as Hne.
  unfold Key.clean_key, Key.remove, Key.key, Key.pub_key. cbn [Key.name].
  rewrite Hk. cbv beta iota zeta.
  rewrite lookup_delete_ne by congruence. rewrite Hp. cbv beta iota zeta. f_equal.
  apply map_eq. intros p.
  destruct (decide (p = nm +:+ ".pub")) as [->|Hpp].
  { now rewrite lookup_delete_eq, H2. }
  rewrite lookup_delete_ne by congruence.
  destruct (decide (p = nm)) as [->|Hpk].
  { now rewrite lookup_delete_eq, H1. }
  rewrite lookup_delete_ne by congruence. now apply Hf.
Qed.

(** X4.  Creating a key where no file of the pair existed and cleaning it
    again leaves the local files exactly as they were. *)
Theorem Key_init_clean_round_trip (gen : Key.keygen) (name : option string)
    (fs : Key.lfs) :
  Key.generates gen →
  let self := {| Key.name := if Py.falsy name then ".iscsi_fake_id_dsa" else Py.str name |} in
  fs !! Key.key self = None →
  fs !! Key.pub_key self = None →
  ∃ fs', Key.__init__ gen name fs = (inr self, fs') ∧
         Key.clean_key self fs' = (inr tt, fs).
Proof.
  intros Hgen self H1 H2.
  destruct (Key_init_generates gen name fs Hgen H1) as (fs' & c1 & c2 & Hinit & Hk & Hp & Hf).
  exists fs'. split; [exact Hinit |].
  exact (clean_after_generate _ fs fs' _ _ H1 H2 Hk Hp Hf).
Qed.

Lemma Key_init_clean_round_trip_witness :
  ∃ fs', Key.__init__ Key.plain_keygen (Some ".n1_iscsi_fake_id_dsa")
           (<["notes" := (420%N, "text")]> ∅)
         = (inr {| Key.name := ".n1_iscsi_fake_id_dsa" |}, fs') ∧
         Key.clean_key {| Key.name := ".n1_iscsi_fake_id_dsa" |} fs'
         = (inr tt, <["notes" := (420%N, "text")]> ∅).
Proof.
  apply (Key_init_clean_round_trip Key.plain_keygen (Some ".n1_iscsi_fake_id_dsa")
           (<["notes" := (420%N, "text")]> ∅) plain_keygen_generates);
    vm_compute; reflexivity.
Defined.

(** X5.  A [clean_key] that returned has nothing left to do: a second
    call returns as well and changes no file. *)
Theorem Key_clean_key_twice (self : Key.t) (fs fs' : Key.lfs) :
  Key.clean_key self fs = (inr tt, fs') →
  Key.clean_key self fs' = (inr tt, fs').
Proof.
  destruct self as [nm]. pose proof (pub_differs nm) as Hne.
  unfold Key.clean_key, Key.remove, Key.key, Key.pub_key. cbn [Key.name].
  destruct (fs !! nm) as [x|] eqn:Hk.
  - destruct (delete nm fs !! (nm +:+ ".pub")) eqn:Hp; [| discriminate].
    intros H. injection H as <-.
    rewrite lookup_delete_ne by congruence. now rewrite lookup_delete_eq.
  - intros H. injection H as <-. now rewrite Hk.
Qed.

Lemma Key_clean_key_twice_witness :
  Key.clean_key {| Key.name := "id" |} ∅ = (inr tt, ∅).
Proof.
  apply (Key_clean_key_twice {| Key.name := "id" |}
           (<["id.pub" := (384%N, "public")]> (<["id" := (384%N, "private")]> ∅)) ∅).
  vm_compute. reflexivity.
Defined.

(** ** SSH: the watcher and the lazy connection *)

Lemma no_nl_app (a b : string) : no_nl (a +:+ b) = no_nl a && no_nl b.
Proof.
  induction a as [|c a IH]; simpl; [reflexivity |]. now rewrite IH, andb_assoc.
Qed.

Lemma eqb_nl_false (p s : string) :
  no_nl p = true → no_nl s = false → String.eqb s p = false.
Proof.
  intros Hp Hs. destruct (String.eqb_spec s p) as [->|_]; [congruence | reflexivity].
Qed.

(** A text without newline ends nothing that reaches back over a
    newline. *)
Lemma endswith_after_nl (p : string) :
  no_nl p = true →
  ∀ pre y, Py.endswith (pre +:+ String LF y) p = Py.endswith y p.
Proof.
  intros Hp. induction pre as [|c pre IH]; intros y.
  - change (Py.endswith ("" +:+ String LF y) p)
      with (String.eqb (String LF y) p || Py.endswith y p).
    now rewrite (eqb_nl_false p (String LF y) Hp eq_refl).
  - change (Py.endswith (String c pre +:+ String LF y) p)
      with (String.eqb (String c (pre +:+ String LF y)) p ||
            Py.endswith (pre +:+ String LF y) p).
    rewrite (eqb_nl_false p (String c (pre +:+ String LF y)) Hp).
    + apply IH.
    + change (no_nl (String c (pre +:+ String LF y)))
        with (negb (Ascii.eqb c LF) && no_nl (pre +:+ String LF y)).
      rewrite no_nl_app. change (no_nl (String LF y)) with false.
      now rewrite !andb_false_r.
Qed.

Lemma watch_counts (password : string) :
  ∀ out aggregated seen,
    (∀ y, Py.endswith (aggregated +:+ y) prompt = Py.endswith (seen +:+ y) prompt) →
    length (SSH.watch password aggregated out) = prompts_seen seen out ∧
    Forall (λ a, a = password +:+ nl) (SSH.watch password aggregated out).
Proof.
  induction out as [|c out IH]; intros agg seen Hinv; [split; constructor |].
  change (SSH.watch password agg (String c out))
    with (let '(aggregated, put) := SSH._interact password agg c in
          (put ++ SSH.watch password aggregated out)%list).
  change (prompts_seen seen (String c out))
    with ((if Py.endswith (seen +:+ String c "") prompt then 1 else 0) +
          prompts_seen (seen +:+ String c "") out)%nat.
  unfold SSH._interact. fold prompt. rewrite <- (Hinv (String c "")).
  assert (Hnext : ∀ y, Py.endswith ((agg +:+ String c "") +:+ y) prompt
                       = Py.endswith ((seen +:+ String c "") +:+ y) prompt).
  { intros y. rewrite !app_assoc_s. apply Hinv. }
  destruct (Py.endswith (agg +:+ String c "") prompt).
  - destruct (IH _ _ Hnext) as [Hlen Hall]. split.
    + simpl. now rewrite Hlen.
    + constructor; [reflexivity | exact Hall].
  - destruct (Ascii.eqb_spec c LF) as [->|Hc].
    + assert (Hreset : ∀ y, Py.endswith ("" +:+ y) prompt
                            = Py.endswith ((seen +:+ String LF "") +:+ y) prompt).
      { intros y. rewrite app_assoc_s.
        change (String LF "" +:+ y) with (String LF y).
        now rewrite (endswith_after_nl prompt eq_refl). }
      destruct (IH _ _ Hreset) as [Hlen Hall]. split; [exact Hlen | exact Hall].
    + destruct (IH _ _ Hnext) as [Hlen Hall]. split; [exact Hlen | exact Hall].
Qed.

(** X6.  Over a whole run of [ssh-copy-id], the watcher puts the password
    and a newline on [stdin] once for each place where the output so far
    ends with the prompt, and it puts nothing else: the reset of the
    gathered text at each newline loses no prompt and invents none. *)
Theorem watcher_answers_each_prompt (password out : string) :
  length (SSH.watch password "" out) = prompts_seen "" out ∧
  Forall (λ a, a = password +:+ nl) (SSH.watch password "" out).
Proof. apply watch_counts. reflexivity. Qed.

Lemma getattr_connected (proc : SSH.copier) (self : SSH.t) (log : list SSH.exchange)
    (d : string) :
  SSH._connect self = Some d →
  SSH.__getattr__ proc (self, log) = Some (Ret (Some d), (self, log)).
Proof.
  intros H. unfold SSH.__getattr__.
  cbv [mbind M_bind bind mret M_ret ret get]. now rewrite H, H.
Qed.

(** X7.  Once a remote operation went through, the session is connected,
    and every later operation reuses that connection: it returns the same
    handle, runs no key-install exchange and leaves the session as it
    is. *)
Theorem getattr_connects_once (proc : SSH.copier) (self self1 : SSH.t)
    (log log1 : list SSH.exchange) (c : option string) :
  SSH.__getattr__ proc (self, log) = Some (Ret c, (self1, log1)) →
  (∃ d, c = Some d ∧ SSH._connect self1 = Some d) ∧
  SSH.__getattr__ proc (self1, log1) = Some (Ret c, (self1, log1)).
Proof.
  intros H.
  assert (Hc : ∃ d, c = Some d ∧ SSH._connect self1 = Some d).
  { unfold SSH.__getattr__ in H.
    apply bind_ret_inv in H as ([s0 l0] & s1 & H0 & H).
    injection H0 as <- <- <-.
    apply bind_ret_inv in H as ([] & [s2 l2] & H2 & H).
    apply bind_ret_inv in H as ([s3 l3] & s4 & H3 & H).
    injection H3 as <- <- <-. injection H as <- <- <-.
    destruct (SSH._connect self) as [d|] eqn:Hd.
    - injection H2 as <- <-. eauto.
    - apply bind_ret_inv in H2 as (d & [s5 l5] & H5 & H2).
      injection H2 as <- <-.
      unfold SSH.connect in H5.
      apply bind_ret_inv in H5 as ([s6 l6] & s7 & H6 & H5).
      injection H6 as <- <- <-.
      apply bind_ret_inv in H5 as ([] & [s8 l8] & H8 & H5).
      apply bind_ret_inv in H5 as ([] & [s9 l9] & H9 & H5).
      injection H9 as <- <-. injection H5 as <- <- <-.
      simpl. eauto. }
  split; [exact Hc |].
  destruct Hc as (d & -> & Hd). now apply getattr_connected.
Qed.

Lemma getattr_connects_once_witness :
  (∃ d, Some "root@n1" = Some d ∧
        SSH._connect (SSH.set_connect (Some "root@n1") (SSH.__init__ "n1" "root" "linux"))
        = Some d) ∧
  SSH.__getattr__ asking_copier
    (SSH.set_connect (Some "root@n1") (SSH.__init__ "n1" "root" "linux"),
     [{| SSH.ex_key := ".n1_iscsi_fake_id_dsa.pub"; SSH.ex_dest := "root@n1";
         SSH.ex_stdin := ["linux" +:+ nl] |}])
  = Some (Ret (Some "root@n1"),
          (SSH.set_connect (Some "root@n1") (SSH.__init__ "n1" "root" "linux"),
           [{| SSH.ex_key := ".n1_iscsi_fake_id_dsa.pub"; SSH.ex_dest := "root@n1";
               SSH.ex_stdin := ["linux" +:+ nl] |}])).
Proof.
  apply (getattr_connects_once asking_copier (SSH.__init__ "n1" "root" "linux") _ []).
  vm_compute. reflexivity.
Defined.

(** X8.  When the key-install exchange fails, the first remote operation
    of a session raises the exit status of [ssh-copy-id] and the session
    stays unconnected (the next operation will try the exchange again);
    the failed exchange is on record with what the watcher answered. *)
Theorem getattr_exchange_fails (proc : SSH.copier) (self : SSH.t)
    (log : list SSH.exchange) (code : nat) (out : string) :
  SSH._connect self = None →
  SSH._copy_id self = false →
  proc (SSH.pub_key self) (SSH.dest self) = (S code, out) →
  SSH.__getattr__ proc (self, log)
  = Some (Raise (ErrorReturnCode (S code)),
          (self, (log ++ [{| SSH.ex_key := SSH.pub_key self; SSH.ex_dest := SSH.dest self;
                             SSH.ex_stdin := SSH.watch (SSH.password self) "" out |}])%list)).
Proof.
  intros Hc Hf Hproc. unfold SSH.__getattr__.
  rewrite bind_unfold. unfold get at 1. cbv beta iota. rewrite Hc.
  rewrite bind_unfold. rewrite bind_unfold. unfold SSH.connect.
  rewrite bind_unfold. unfold get at 1. cbv beta iota. rewrite Hf.
  change (negb false) with true. cbv iota.
  rewrite bind_unfold. unfold SSH.ssh_copy_id. rewrite Hf, Hproc. reflexivity.
Qed.

Lemma getattr_exchange_fails_witness :
  SSH.__getattr__ refusing_copier (SSH.__init__ "n1" "root" "linux", [])
  = Some (Raise (ErrorReturnCode 1),
          (SSH.__init__ "n1" "root" "linux",
           [{| SSH.ex_key := ".n1_iscsi_fake_id_dsa.pub"; SSH.ex_dest := "root@n1";
               SSH.ex_stdin := [] |}])).
Proof.
  apply (getattr_exchange_fails refusing_copier (SSH.__init__ "n1" "root" "linux") []
           0 "Permission denied"); reflexivity.
Defined.

(** ** Target: the listing of loop devices *)

Lemma substring_skip (a b : string) (m : nat) :
  String.substring (String.length a) m (a +:+ b) = String.substring 0 m b.
Proof. induction a as [|c a IH]; [reflexivity | exact IH]. Qed.

Lemma substring_all (b : string) :
  ∀ m, (String.length b <= m)%nat → String.substring 0 m b = b.
Proof.
  induction b as [|c b IH]; intros m Hm.
  - now destruct m.
  - destruct m as [|m]; simpl in Hm; [lia |]. simpl. rewrite IH; [reflexivity | lia].
Qed.

Lemma substring_take (a b : string) :
  String.substring 0 (String.length a) (a +:+ b) = a.
Proof.
  induction a as [|c a IH]; simpl; [now destruct b |]. now rewrite IH.
Qed.

Lemma span_digits_app (ds rest : string) :
  all_digits ds = true →
  Target.span_digits rest = ("", rest) →
  Target.span_digits (ds +:+ rest) = (ds, rest).
Proof.
  intros Hds Hrest. induction ds as [|c ds IH]; [exact Hrest |].
  simpl in Hds. apply andb_true_iff in Hds as [Hc Hds].
  change (Target.span_digits (String c ds +:+ rest))
    with (if Target.is_digit c
          then let '(d, r) := Target.span_digits (ds +:+ rest) in (String c d, r)
          else ("", String c (ds +:+ rest))).
  now rewrite Hc, (IH Hds).
Qed.

Lemma until_nl_id (s : string) : no_nl s = true → Target.until_nl s = s.
Proof.
  induction s as [|c s IH]; intros H; [reflexivity |].
  simpl in H. apply andb_true_iff in H as [Hc Hs]. apply negb_true_iff in Hc.
  simpl. now rewrite Hc, (IH Hs).
Qed.

Lemma rindex_last (c : ascii) (a : string) :
  Target.rindex c (a +:+ String c "") = Some (String.length a).
Proof.
  induction a as [|x a IH]; simpl.
  - now rewrite Ascii.eqb_refl.
  - now rewrite IH.
Qed.

Lemma rindex_lacks (c : ascii) (b : string) : lacks c b = true → Target.rindex c b = None.
Proof.
  induction b as [|x b IH]; intros H; [reflexivity |].
  simpl in H. apply andb_true_iff in H as [Hx Hb]. apply negb_true_iff in Hx.
  simpl. now rewrite (IH Hb), Hx.
Qed.

Lemma rindex_before_lacking (c : ascii) (a b : string) :
  lacks c b = true → Target.rindex c (a +:+ String c b) = Some (String.length a).
Proof.
  intros Hb. induction a as [|x a IH]; simpl.
  - now rewrite (rindex_lacks c b Hb), Ascii.eqb_refl.
  - now rewrite IH.
Qed.

(** X9.  The pattern of [find_loop] reads a line of [losetup -a] back:
    from the line of device [/dev/loopN] (N one or more digits) with backing
    file [file], whatever the details between the colon and the opening
    parenthesis, it yields the device and the file, provided the line has
    no newline and the file name no opening parenthesis. *)
Theorem pattern_match_loop_line (digits details file : string) :
  digits ≠ "" → all_digits digits = true →
  no_nl details = true → no_nl file = true → lacks "(" file = true →
  Target.pattern_match (loop_line digits details file)
  = Some ("/dev/loop" +:+ digits, file).
Proof.
  intros Hne Hds Hdet Hfile Hparen.
  unfold Target.pattern_match, loop_line.
  rewrite startswith_app.
  set (tail := digits +:+ ":" +:+ details +:+ "(" +:+ file +:+ ")").
  assert (Hsub : String.substring 9 (String.length ("/dev/loop" +:+ tail))
                   ("/dev/loop" +:+ tail) = tail).
  { change 9%nat with (String.length "/dev/loop") at 1.
    rewrite substring_skip. apply substring_all.
    rewrite length_app_s. lia. }
  rewrite Hsub. unfold tail.
  rewrite (span_digits_app digits (":" +:+ details +:+ "(" +:+ file +:+ ")") Hds
             eq_refl).
  destruct digits as [|d ds]; [congruence |].
  change (":" +:+ details +:+ "(" +:+ file +:+ ")")
    with (String ":" (details +:+ "(" +:+ file +:+ ")")).
  cbv iota beta.
  set (body := details +:+ "(" +:+ file +:+ ")").
  assert (Hbody_nl : no_nl body = true).
  { unfold body. rewrite !no_nl_app, Hdet, Hfile. reflexivity. }
  rewrite (until_nl_id body Hbody_nl).
  assert (Hq : Target.rindex ")" body
               = Some (String.length (details +:+ "(" +:+ file))).
  { unfold body.
    replace (details +:+ "(" +:+ file +:+ ")")
      with ((details +:+ "(" +:+ file) +:+ ")") by now rewrite !app_assoc_s.
    apply rindex_last. }
  rewrite Hq. cbn [mbind option_bind].
  assert (Hpre : String.substring 0 (String.length (details +:+ "(" +:+ file)) body
                 = details +:+ "(" +:+ file).
  { unfold body.
    replace (details +:+ "(" +:+ file +:+ ")")
      with ((details +:+ "(" +:+ file) +:+ ")") by now rewrite !app_assoc_s.
    apply substring_take. }
  rewrite Hpre.
  assert (Hp : Target.rindex "(" (details +:+ "(" +:+ file)
               = Some (String.length details))
    by apply (rindex_before_lacking "(" details file Hparen).
  rewrite Hp. cbn [mbind option_bind].
  do 2 f_equal.
  replace (S (String.length details)) with (String.length (details +:+ "("))
    by (rewrite length_app_s; simpl; lia).
  unfold body.
  replace (details +:+ "(" +:+ file +:+ ")")
    with ((details +:+ "(") +:+ (file +:+ ")")) by now rewrite !app_assoc_s.
  rewrite substring_skip.
  replace (String.length (details +:+ "(" +:+ file) - String.length (details +:+ "("))%nat
    with (String.length file).
  - apply substring_take.
  - rewrite !length_app_s. simpl. lia.
Qed.

Lemma pattern_match_loop_line_witness :
  Target.pattern_match (loop_line "12" " [0803]:4711 " "/tmp/id01-iscsi.loop")
  = Some ("/dev/loop12", "/tmp/id01-iscsi.loop").
Proof.
  apply (pattern_match_loop_line "12" " [0803]:4711 " "/tmp/id01-iscsi.loop");
    [discriminate | reflexivity | reflexivity | reflexivity | reflexivity].
Defined.

(** X10.  What [find_loop] answers is backed by the listing: a device it
    returns is the one asked for, with the file read from one of the lines;
    it returns nothing only when every line is a line of another device;
    and it fails only with [AttributeError], on a line the pattern
    rejects. *)
Theorem find_loop_scan_sound (loop : string) (lines : list string) :
  match Target.find_loop_scan loop lines with
  | Ret (Some (d, f)) =>
      d = loop ∧ ∃ line, In line lines ∧ Target.pattern_match line = Some (loop, f)
  | Ret None => ∀ line, In line lines → other_device loop line = true
  | Raise e =>
      e = AttributeError ∧ ∃ line, In line lines ∧ Target.pattern_match line = None
  end.
Proof.
  induction lines as [|l ls IH]; simpl; [intros line [] |].
  destruct (Target.pattern_match l) as [[d f]|] eqn:Hl.
  - destruct (String.eqb_spec loop d) as [->|Hne].
    + split; [reflexivity |]. exists l. auto.
    + destruct (Target.find_loop_scan loop ls) as [[[d' f']|]|e].
      * destruct IH as (-> & line & Hin & Hm). split; [reflexivity |]. eauto.
      * intros line [<-|Hin]; [| now apply IH].
        unfold other_device. rewrite Hl. apply negb_true_iff.
        now apply String.eqb_neq.
      * destruct IH as (-> & line & Hin & Hm). split; [reflexivity |]. eauto.
  - split; [reflexivity |]. exists l. auto.
Qed.

Lemma run_ok (exec : host) (args : list arg) (r r' : remote) (out : string) :
  exec args r = (0%nat, out, r') → run exec args r = Some (Ret out, r').
Proof. intros H. unfold run. now rewrite H. Qed.

Lemma run_fails (exec : host) (args : list arg) (r r' : remote) (out : string)
    (code : nat) :
  exec args r = (S code, out, r') →
  run exec args r = Some (Raise (ErrorReturnCode (S code)), r').
Proof. intros H. unfold run. now rewrite H. Qed.

(** X11.  On a loop path that is not bound, once the zero-fill, the
    partitioning and the binding went through, [create_loop] looks at the
    listing again: it returns when the loop shows there; when it does not,
    what is raised is a [TypeError], since the message of the intended
    error is formatted with [None]. *)
Theorem create_loop_checks_binding (exec : host) (loop path : string) (size : Z)
    (r r1 r2 r3 : remote) (o1 o2 o3 : string) :
  Target.find_loop_scan loop (losetup_a r) = Ret None →
  exec (dd_cmd path size) r = (0%nat, o1, r1) →
  exec (fdisk_cmd path) r1 = (0%nat, o2, r2) →
  exec (losetup_cmd loop path) r2 = (0%nat, o3, r3) →
  Target.create_loop exec loop path size r =
  match Target.find_loop_scan loop (losetup_a r3) with
  | Ret (Some _) => Some (Ret tt, r3)
  | Ret None => Some (Raise TypeError, r3)
  | Raise e => Some (Raise e, r3)
  end.
Proof.
  intros Hfree H1 H2 H3. unfold Target.create_loop.
  rewrite bind_unfold. unfold Target.find_loop at 1. rewrite Hfree.
  fold (dd_cmd path size) (fdisk_cmd path) (losetup_cmd loop path).
  rewrite bind_unfold, (run_ok _ _ _ _ _ H1).
  rewrite bind_unfold, (run_ok _ _ _ _ _ H2).
  rewrite bind_unfold, (run_ok _ _ _ _ _ H3).
  rewrite bind_unfold. unfold Target.find_loop.
  now destruct (Target.find_loop_scan loop (losetup_a r3)) as [[[d f]|]|e].
Qed.

Lemma create_loop_checks_binding_witness :
  Target.create_loop binding_host "/dev/loop0" "/tmp/id01-iscsi.loop" 1 (mk_remote [])
  = Some (Ret tt, {| files := ∅;
                     losetup_a := ["/dev/loop0: [0803]:7 (/tmp/id01-iscsi.loop)"] |}).
Proof.
  exact (create_loop_checks_binding binding_host "/dev/loop0" "/tmp/id01-iscsi.loop" 1
           (mk_remote []) (mk_remote []) (mk_remote [])
           {| files := ∅;
              losetup_a := ["/dev/loop0: [0803]:7 (/tmp/id01-iscsi.loop)"] |}
           "" "" "" eq_refl eq_refl eq_refl eq_refl).
Defined.

(** X12.  When the zero-fill of the backing file fails, [create_loop]
    raises its exit status and issues neither the partitioning nor the
    binding: the host is as the failed command left it. *)
Theorem create_loop_stops_at_dd (exec : host) (loop path : string) (size : Z)
    (r r1 : remote) (out : string) (code : nat) :
  Target.find_loop_scan loop (losetup_a r) = Ret None →
  exec (dd_cmd path size) r = (S code, out, r1) →
  Target.create_loop exec loop path size r
  = Some (Raise (ErrorReturnCode (S code)), r1).
Proof.
  intros Hfree H1. unfold Target.create_loop.
  rewrite bind_unfold. unfold Target.find_loop at 1. rewrite Hfree.
  fold (dd_cmd path size).
  now rewrite bind_unfold, (run_fails _ _ _ _ _ _ H1).
Qed.

Lemma create_loop_stops_at_dd_witness :
  Target.create_loop failing_host "/dev/loop0" "/tmp/id01-iscsi.loop" 1 (mk_remote [])
  = Some (Raise (ErrorReturnCode 4), mk_remote []).
Proof.
  apply (create_loop_stops_at_dd failing_host "/dev/loop0" "/tmp/id01-iscsi.loop" 1
           (mk_remote []) (mk_remote []) "" 3); reflexivity.
Defined.

(** X13.  [destroy_loop] on a loop path the listing does not show does
    nothing at all: no command reaches the host. *)
Theorem destroy_loop_unbound (exec : host) (loop : string) (r : remote) :
  Target.find_loop_scan loop (losetup_a r) = Ret None →
  Target.destroy_loop exec loop r = Some (Ret tt, r).
Proof.
  intros Hfree. unfold Target.destroy_loop.
  rewrite bind_unfold. unfold Target.find_loop. now rewrite Hfree.
Qed.

Lemma destroy_loop_unbound_witness :
  Target.destroy_loop wiping_host "/dev/loop3" two_loops = Some (Ret tt, two_loops).
Proof.
  apply (destroy_loop_unbound wiping_host "/dev/loop3" two_loops). reflexivity.
Defined.

(** X14.  [destroy_loop] on a bound loop path detaches it and then
    removes the backing file the listing names, and no other file.  When
    the detaching reports that it cannot delete, the report is raised and
    the backing file stays. *)
Theorem destroy_loop_bound (exec : host) (loop ldev lfile : string)
    (r r1 : remote) (out : string) :
  Target.find_loop_scan loop (losetup_a r) = Ret (Some (ldev, lfile)) →
  exec [Str "losetup"; Str "-d"; Str loop] r = (0%nat, out, r1) →
  (Py.contains "can't delete" out = true →
   Target.destroy_loop exec loop r = Some (Raise (Exception out), r1)) ∧
  (Py.contains "can't delete" out = false →
   plain_path lfile = true → is_Some (files r1 !! lfile) →
   ∃ r', Target.destroy_loop exec loop r = Some (Ret tt, r') ∧
         files r' = delete lfile (files r1) ∧ losetup_a r' = losetup_a r1).
Proof.
  intros Hbound Hdetach.
  assert (Hrun : Target.destroy_loop exec loop r
                 = if Py.contains "can't delete" out
                   then Some (Raise (Exception out), r1) else rm lfile r1).
  { unfold Target.destroy_loop.
    rewrite bind_unfold. unfold Target.find_loop. rewrite Hbound.
    rewrite bind_unfold, (run_ok _ _ _ _ _ Hdetach).
    now destruct (Py.contains "can't delete" out). }
  split.
  - intros Hc. now rewrite Hrun, Hc.
  - intros Hc Hp [c Hfile]. rewrite Hrun, Hc, (rm_ok _ _ _ Hp Hfile).
    eexists. split; [reflexivity |]. split; reflexivity.
Qed.

Lemma destroy_loop_bound_witness :
  Target.destroy_loop busy_host "/dev/loop0" two_loops
  = Some (Raise (Exception "ioctl: LOOP_CLR_FD: can't delete"), two_loops).
Proof.
  refine (proj1 (destroy_loop_bound busy_host "/dev/loop0" "/dev/loop0"
                   "/tmp/id01-iscsi.loop" two_loops two_loops
                   "ioctl: LOOP_CLR_FD: can't delete" _ _) _); reflexivity.
Defined.

(** ** Target and Initiator: how a deploy stops *)

Lemma zypper_ok (exec : host) (package : string) (r r1 : remote) (out : string) :
  exec (zypper_cmd package) r = (0%nat, out, r1) →
  ISCSI.zypper exec package r = Some (Ret tt, r1).
Proof.
  intros H. unfold ISCSI.zypper. fold (zypper_cmd package).
  now rewrite bind_unfold, (run_ok _ _ _ _ _ H).
Qed.

Lemma zypper_fails (exec : host) (package : string) (r r1 : remote) (out : string)
    (code : nat) :
  exec (zypper_cmd package) r = (S code, out, r1) →
  ISCSI.zypper exec package r = Some (Raise (ErrorReturnCode (S code)), r1).
Proof.
  intros H. unfold ISCSI.zypper. fold (zypper_cmd package).
  now rewrite bind_unfold, (run_fails _ _ _ _ _ _ H).
Qed.

(** X15.  For a loop device without a backing path (none, or the empty
    string), [Target.deploy] raises the missing-path error right after the
    package installation: no loop is created, no configuration file is
    read or written, no service is touched. *)
Theorem deploy_loop_without_path (exec : host) (self : Target.t) (r r1 : remote)
    (out : string) :
  Py.startswith "/dev/loop" (Target.device self) = true →
  Py.falsy (Target.path self) = true →
  exec (zypper_cmd "iscsitarget") r = (0%nat, out, r1) →
  Target.deploy exec self r = Some (Raise ConfigurationError, r1).
Proof.
  intros Hloop Hpath Hzypper. unfold Target.deploy, Target.deploy_steps.
  rewrite bind_unfold, bind_unfold, (zypper_ok _ _ _ _ _ Hzypper).
  rewrite bind_unfold, Hloop.
  destruct (Target.path self) as [[|c p]|]; try discriminate; reflexivity.
Qed.

Lemma deploy_loop_without_path_witness :
  Target.deploy wiping_host
    {| Target.device := "/dev/loop0"; Target.path := None;
       Target.iqn_id := "id01"; Target.size := 1 |}
    (lab_host "" "")
  = Some (Raise ConfigurationError, mk_remote []).
Proof.
  apply (deploy_loop_without_path wiping_host _ (lab_host "" "") (mk_remote []) "");
    reflexivity.
Defined.

(** X16.  When the package installation fails, a deploy (of a target or
    of an initiator) raises its exit status and does nothing further; an
    initiator keeps the name it had. *)
Theorem deploy_stops_at_install (exec : host) (r r1 : remote) (out : string)
    (code : nat) :
  (∀ self, exec (zypper_cmd "iscsitarget") r = (S code, out, r1) →
           Target.deploy exec self r = Some (Raise (ErrorReturnCode (S code)), r1)) ∧
  (∀ self, exec (zypper_cmd "open-iscsi") r = (S code, out, r1) →
           Initiator.deploy exec (self, r)
           = Some (Raise (ErrorReturnCode (S code)), (self, r1))).
Proof.
  split; intros self H.
  - unfold Target.deploy, Target.deploy_steps.
    now rewrite bind_unfold, bind_unfold, (zypper_fails _ _ _ _ _ _ H).
  - unfold Initiator.deploy. rewrite bind_unfold. unfold Initiator.lift.
    rewrite (zypper_fails _ _ _ _ _ _ H). reflexivity.
Qed.

Lemma deploy_stops_at_install_witness :
  Target.deploy failing_host sdc_target (lab_host "" "")
  = Some (Raise (ErrorReturnCode 4), lab_host "" "").
Proof.
  apply (proj1 (deploy_stops_at_install failing_host (lab_host "" "") (lab_host "" "")
                  "" 3) sdc_target).
  reflexivity.
Defined.

(** ** Initiator: newline-terminated discovery listings *)

Lemma split_nl_line (l rest : string) :
  no_nl l = true → Py.split_nl (l +:+ nl +:+ rest) = l :: Py.split_nl rest.
Proof.
  induction l as [|c l IH]; intros H; [reflexivity |].
  simpl in H. apply andb_true_iff in H as [Hc Hl]. apply negb_true_iff in Hc.
  change (Py.split_nl (String c l +:+ nl +:+ rest))
    with (if Ascii.eqb c LF then "" :: Py.split_nl (l +:+ nl +:+ rest)
          else match Py.split_nl (l +:+ nl +:+ rest) with
               | x :: xs => String c x :: xs
               | [] => [String c ""]
               end).
  now rewrite Hc, (IH Hl).
Qed.

(** Splitting a newline-terminated text gives its lines and a last empty
    piece. *)
Lemma split_nl_unlines (ls : list string) :
  forallb no_nl ls = true → Py.split_nl (unlines ls) = (ls ++ [""])%list.
Proof.
  induction ls as [|l ls IH]; intros H; [reflexivity |].
  simpl in H. apply andb_true_iff in H as [Hl Hls].
  change (unlines (l :: ls)) with (l +:+ nl +:+ unlines ls).
  rewrite (split_nl_line l _ Hl), (IH Hls). reflexivity.
Qed.

(** X17.  On a discovery listing whose lines all end with a newline, the
    loop of [Initiator.deploy] returns the name of the first entry that
    holds the id, provided the entries before it have two fields each: the
    empty piece after the last newline is never reached. *)
Theorem discover_terminated_listing (id : string) (before after : list string)
    (entry portal name : string) :
  forallb no_nl (before ++ entry :: after) = true →
  Forall (λ p, ∃ a b, Py.split p = [a; b] ∧ Py.contains id b = false) before →
  Py.split entry = [portal; name] →
  Py.contains id name = true →
  Initiator.discover id (Py.split_nl (unlines (before ++ entry :: after)))
  = Ret (Some name).
Proof.
  intros Hnl Hbefore Hentry Hname.
  rewrite (split_nl_unlines _ Hnl), <- app_assoc.
  change ((entry :: after) ++ [""])%list with (entry :: (after ++ [""]))%list.
  now apply (discover_first_match id before (after ++ [""])%list entry portal name).
Qed.

Lemma discover_terminated_listing_witness :
  Initiator.discover "id02"
    (Py.split_nl (unlines (["10.0.0.1:3260,1 iqn.2015-01.qa.cloud.suse.de:id01"] ++
                           "10.0.0.1:3260,1 iqn.2015-01.qa.cloud.suse.de:id02" ::
                           ["10.0.0.1:3260,1 iqn.2015-01.qa.cloud.suse.de:id03"])))
  = Ret (Some "iqn.2015-01.qa.cloud.suse.de:id02").
Proof.
  apply (discover_terminated_listing "id02"
           ["10.0.0.1:3260,1 iqn.2015-01.qa.cloud.suse.de:id01"]
           ["10.0.0.1:3260,1 iqn.2015-01.qa.cloud.suse.de:id03"]
           "10.0.0.1:3260,1 iqn.2015-01.qa.cloud.suse.de:id02"
           "10.0.0.1:3260,1" "iqn.2015-01.qa.cloud.suse.de:id02").
  - reflexivity.
  - constructor; [| constructor]. do 2 eexists. split; reflexivity.
  - reflexivity.
  - reflexivity.
Defined.

(** X18.  On a discovery listing whose lines all end with a newline and
    have two fields each, none holding the id (the empty listing
    included), the loop of [Initiator.deploy] raises [ValueError] on the
    empty piece after the last newline: it never ends without a name, so
    the error for a target that was not found is out of reach for such
    listings. *)
Theorem discover_terminated_no_match (id : string) (entries : list string) :
  forallb no_nl entries = true →
  Forall (λ p, ∃ a b, Py.split p = [a; b] ∧ Py.contains id b = false) entries →
  Initiator.discover id (Py.split_nl (unlines entries)) = Raise ValueError.
Proof.
  intros Hnl Hall. rewrite (split_nl_unlines _ Hnl). clear Hnl.
  induction Hall as [|p ps (a & b & Hp & Hb) _ IH]; [reflexivity |].
  simpl. now rewrite Hp, Hb.
Qed.

Lemma discover_terminated_no_match_witness :
  Initiator.discover "id02"
    (Py.split_nl (unlines ["10.0.0.1:3260,1 iqn.2015-01.qa.cloud.suse.de:id01"]))
  = Raise ValueError.
Proof.
  apply (discover_terminated_no_match "id02"
           ["10.0.0.1:3260,1 iqn.2015-01.qa.cloud.suse.de:id01"]).
  - reflexivity.
  - constructor; [| constructor]. do 2 eexists. split; reflexivity.
Defined.

(** ** remove_cfg and append_cfg together *)

Lemma replace_go_absent (old s : string) :
  Py.contains old s = false → Py.replace_go old 0 s = s.
Proof.
  induction s as [|c s IH]; intros H; [reflexivity |].
  change (Py.contains old (String c s))
    with (Py.startswith old (String c s) || Py.contains old s) in H.
  apply orb_false_iff in H as [Hhere Hlater].
  change (Py.replace_go old 0 (String c s))
    with (if Py.startswith old (String c s)
          then Py.replace_go old (String.length old - 1) s
          else String c (Py.replace_go old 0 s)).
  now rewrite Hhere, (IH Hlater).
Qed.

(** X19.  Target lines that nowhere in the text are followed by a
    newline are filtered out of nothing: the text [remove_cfg] writes back
    is the text it read. *)
Theorem remove_lines_absent (cfg : string) (lines : list string) :
  Forall (λ l, Py.contains (l +:+ nl) cfg = false) lines →
  ISCSI.remove_lines cfg lines = cfg.
Proof.
  unfold ISCSI.remove_lines. induction 1 as [|l ls Hl _ IH]; [reflexivity |].
  simpl. rewrite replace_del_nl, (replace_go_absent _ _ Hl). exact IH.
Qed.

Lemma remove_lines_absent_witness :
  ISCSI.remove_lines (unlines ["#! /bin/sh"; "exit 0"]) ["rciscsitarget restart"]
  = unlines ["#! /bin/sh"; "exit 0"].
Proof.
  apply (remove_lines_absent (unlines ["#! /bin/sh"; "exit 0"])
           ["rciscsitarget restart"]).
  constructor; [reflexivity | constructor].
Defined.

Lemma filter_all {A} (p : A → bool) (l : list A) :
  (∀ x, In x l → p x = true) → List.filter p l = l.
Proof.
  induction l as [|x l IH]; intros H; simpl; [reflexivity |].
  rewrite (H x (or_introl eq_refl)). f_equal. apply IH. intros y Hy. apply H. now right.
Qed.

(** X20.  Removing a line and appending it again restores the file byte
    for byte when the line was its last line and no other line is found
    by it: this is what the boot-persistence step relies on for the restart
    line.  (The file ends with a newline, the remote shell writes its lines
    back unchanged, and the line is not empty.) *)
Theorem remove_then_append_restores (fname x : string) (base : list string)
    (r : remote) :
  plain_path fname = true →
  good_line x = true → x ≠ "" →
  forallb (removable_from x) (base ++ [x]) = true →
  existsb (line_matches x) base = false →
  files r !! fname = Some (unlines (base ++ [x])) →
  ∃ r', (ISCSI.remove_cfg fname [x];; ISCSI.append_cfg fname [x]) r
        = Some (Ret tt, r') ∧
        files r' !! fname = Some (unlines (base ++ [x])).
Proof.
  intros Hp Hgood Hne Hrem Hnone Hcfg.
  destruct (good_line_inv x Hgood) as (Hnl & _).
  destruct (remove_cfg_filters fname x (base ++ [x]) r Hp Hnl Hrem Hcfg)
    as (rb & Hremove & Hkept).
  assert (Hbase : List.filter (differs_from x) (base ++ [x]) = base).
  { rewrite List.filter_app. cbn [List.filter]. unfold differs_from at 2.
    rewrite String.eqb_refl. cbn [negb]. rewrite app_nil_r.
    apply filter_all. intros l Hl. unfold differs_from.
    destruct (String.eqb_spec l x) as [->|_]; [| reflexivity].
    exfalso. apply (eq_true_false_abs _ (proj2 (existsb_exists _ _)
      (ex_intro _ x (conj Hl (line_matches_self x Hgood)))) Hnone). }
  rewrite Hbase in Hkept.
  assert (Hnlb : forallb no_nl base = true).
  { apply forallb_forall. intros l Hl.
    apply (removable_from_inv x).
    apply (proj1 (forallb_forall _ _) Hrem). apply in_or_app. now left. }
  rewrite bind_unfold, Hremove.
  rewrite (append_cfg_spec fname (unlines base) [x] rb Hp); [| | exact Hkept].
  - eexists. split; [reflexivity |]. rewrite files_write. f_equal.
    cbn [List.filter]. rewrite (unmatched_unlines x base Hgood Hnlb).
    rewrite Hnone, (line_matches_empty x Hne). cbn [orb negb].
    now rewrite unlines_app.
  - simpl. now rewrite Hgood.
Qed.

Lemma remove_then_append_restores_witness :
  ∃ r', (ISCSI.remove_cfg Target.boot_local [Target.restart_line];;
         ISCSI.append_cfg Target.boot_local [Target.restart_line])
          (mk_remote [(Target.boot_local,
                       unlines (["#! /bin/sh"; "losetup /dev/sdc None"] ++
                                [Target.restart_line]))])
        = Some (Ret tt, r') ∧
        files r' !! Target.boot_local
        = Some (unlines (["#! /bin/sh"; "losetup /dev/sdc None"] ++
                         [Target.restart_line])).
Proof.
  apply (remove_then_append_restores Target.boot_local Target.restart_line
           ["#! /bin/sh"; "losetup /dev/sdc None"]);
    try reflexivity.
  discriminate.
Defined.

(** X21.  A name the discovery loop returns is taken from the listing: it
    is the second of the two fields of one of the pieces, and it holds the
    id asked for. *)
Theorem discover_sound (id : string) (pieces : list string) (n : string) :
  Initiator.discover id pieces = Ret (Some n) →
  Py.contains id n = true ∧
  ∃ piece portal, In piece pieces ∧ Py.split piece = [portal; n].
Proof.
  induction pieces as [|p ps IH]; simpl; [discriminate |].
  destruct (Py.split p) as [|a [|b [|c l]]] eqn:Hp; try discriminate.
  destruct (Py.contains id b) eqn:Hb.
  - intros H. injection H as <-. split; [exact Hb |]. exists p, a. auto.
  - intros H. destruct (IH H) as (Hid & piece & portal & Hin & Hs).
    split; [exact Hid |]. exists piece, portal. auto.
Qed.

Lemma discover_sound_witness :
  Py.contains "id02" "iqn.2015-01.qa.cloud.suse.de:id02" = true ∧
  ∃ piece portal, In piece (Py.split_nl two_targets) ∧
                  Py.split piece = [portal; "iqn.2015-01.qa.cloud.suse.de:id02"].
Proof.
  apply (discover_sound "id02" (Py.split_nl two_targets)). reflexivity.
Defined.

(** X22.  [append_cfg] and [remove_cfg] need the file to exist: on a
    path that names no file the first [cat] fails, its exit status is
    raised, and the host is untouched (the file is not created, no backup
    is made). *)
Theorem cfg_edits_need_the_file (fname : string) (lines : list string) (r : remote) :
  plain_path fname = true →
  files r !! fname = None →
  ISCSI.append_cfg fname lines r = Some (Raise (ErrorReturnCode 1), r) ∧
  ISCSI.remove_cfg fname lines r = Some (Raise (ErrorReturnCode 1), r).
Proof.
  intros Hp Hnone. unfold ISCSI.append_cfg, ISCSI.remove_cfg.
  rewrite !bind_unfold. unfold cat. now rewrite Hp, Hnone.
Qed.

Lemma cfg_edits_need_the_file_witness :
  ISCSI.append_cfg "/etc/ietd.conf" ["IncomingUser user passwd"] (mk_remote [])
  = Some (Raise (ErrorReturnCode 1), mk_remote []) ∧
  ISCSI.remove_cfg "/etc/ietd.conf" ["IncomingUser user passwd"] (mk_remote [])
  = Some (Raise (ErrorReturnCode 1), mk_remote []).
Proof.
  apply (cfg_edits_need_the_file "/etc/ietd.conf" ["IncomingUser user passwd"]
           (mk_remote [])); reflexivity.
Defined.

(** X23.  A [Target.deploy] that returns has read an export table that
    holds the target's IQN, and that table is on the host it leaves
    behind. *)
Theorem deploy_returns_when_exported (exec : host) (self : Target.t) (r r' : remote) :
  Target.deploy exec self r = Some (Ret tt, r') →
  ∃ result, files r' !! "/proc/net/iet/volume" = Some result ∧
            Py.contains (Target.iqn self) result = true.
Proof.
  unfold Target.deploy. intros H.
  apply bind_ret_inv in H as ([] & r1 & _ & H).
  unfold Target.check_exported in H.
  apply bind_ret_inv in H as (result & r2 & Hcat & H).
  unfold cat in Hcat. destruct (plain_path _); [| discriminate].
  destruct (files r1 !! "/proc/net/iet/volume") as [c|] eqn:Hc; [| discriminate].
  injection Hcat as <- <-.
  destruct (Py.contains (Target.iqn self) c) eqn:Hin; [| discriminate].
  injection H as <-. eauto.
Qed.

Lemma deploy_returns_when_exported_witness :
  ∃ result,
    files (mk_remote [("/etc/ietd.conf", unlines
                         ["IncomingUser user passwd";
                          "Target iqn.2015-01.qa.cloud.suse.de:id01";
                          String TAB "Lun 0 Path=/dev/sdc"]);
                      (Target.boot_local,
                         unlines ["losetup /dev/sdc None"; "rciscsitarget restart"]);
                      ("/proc/net/iet/volume",
                       "tid:1 name:iqn.2015-01.qa.cloud.suse.de:id01")])
      !! "/proc/net/iet/volume" = Some result ∧
    Py.contains (Target.iqn sdc_target) result = true.
Proof.
  apply (deploy_returns_when_exported quiet_host sdc_target (lab_host "" "")).
  vm_compute. reflexivity.
Defined.

(** ** The quoted Lun line of the target configuration *)

Lemma re_compile_app (a b : string) :
  re_compile (a +:+ b)
  = ra ← re_compile a; rb ← re_compile b; Some (ra ++ rb)%list.
Proof.
  induction a as [|c a IH]; simpl.
  - now destruct (re_compile b).
  - destruct (re_special c); [reflexivity |]. rewrite IH.
    destruct (re_compile a) as [ra|]; [| reflexivity]. simpl.
    now destruct (re_compile b).
Qed.

Lemma append_cfg_loop_app (fname cfg : string) (L1 L2 : list string) (r : remote) :
  ISCSI.append_cfg_loop fname cfg (L1 ++ L2) r
  = (ISCSI.append_cfg_loop fname cfg L1;; ISCSI.append_cfg_loop fname cfg L2) r.
Proof.
  revert r. induction L1 as [|l L1 IH]; intros r; [reflexivity |].
  simpl. destruct (re_search_line l cfg) as [[]|]; [apply IH | | reflexivity].
  rewrite !bind_unfold. destruct (echo_append l fname r) as [[[[]|e] r1]|]; auto.
Qed.

(** The quoted line is a pattern that starts with a double quote. *)
Lemma quoted_lun_pattern (self : Target.t) :
  no_nl (Target.device self) = true →
  is_Some (re_compile (Target.device self)) →
  ∃ r, re_compile (dq +:+ String TAB "Lun 0 Path=" +:+ Target.device self +:+ dq)
       = Some (ReChar DQUOTE :: r) ∧
       re_nl_free (ReChar DQUOTE :: r) = true.
Proof.
  intros Hnl [rd Hrd].
  assert (Hc : ∃ r, re_compile (dq +:+ String TAB "Lun 0 Path=" +:+ Target.device self +:+ dq)
                    = Some (ReChar DQUOTE :: r)).
  { change (dq +:+ String TAB "Lun 0 Path=" +:+ Target.device self +:+ dq)
      with (String DQUOTE ((String TAB "Lun 0 Path=") +:+ (Target.device self +:+ dq))).
    change (re_compile (String DQUOTE ?s))
      with (r ← re_compile s; Some (ReChar DQUOTE :: r)).
    rewrite !re_compile_app, Hrd. simpl. eauto. }
  destruct Hc as [r Hr]. exists r. split; [exact Hr |].
  apply (re_compile_nl_free
           (dq +:+ String TAB "Lun 0 Path=" +:+ Target.device self +:+ dq)
           (ReChar DQUOTE :: r)); [| exact Hr].
  rewrite !no_nl_app, Hnl. reflexivity.
Qed.

Lemma echo_out_quoted_line (text : string) :
  all_dq_literal text = true → Py.startswith "-" text = false →
  echo_out false (dq +:+ text +:+ dq) = Some (text +:+ nl).
Proof.
  intros Hlit Hdash. unfold echo_out, sh_words.
  change (sh_scan false (dq +:+ text +:+ dq))
    with ('(h, _, t) ← sh_scan true (text +:+ dq); Some (h, true, t)).
  rewrite (sh_scan_quoted text Hlit).
  change ((if Py.startswith "-" text then None else Some (text +:+ nl))
          = Some (text +:+ nl)).
  now rewrite Hdash.
Qed.

Lemma quoted_pattern_finds_nothing (r : list re_atom) (ls : list string) :
  forallb (λ l, negb (Py.startswith dq l)) ls = true →
  existsb (re_match_here (ReChar DQUOTE :: r)) ls = false.
Proof.
  intros H. apply not_true_iff_false. intros Hex.
  apply existsb_exists in Hex as (l & Hin & Hm).
  apply (proj1 (forallb_forall _ _) H) in Hin. apply negb_true_iff in Hin.
  destruct l as [|c l]; [discriminate |].
  change (Py.startswith dq (String c l)) with (Ascii.eqb DQUOTE c && true) in Hin.
  change (re_match_here (ReChar DQUOTE :: r) (String c l))
    with (Ascii.eqb DQUOTE c && re_match_here r l) in Hm.
  rewrite andb_true_r in Hin. rewrite Hin in Hm. discriminate.
Qed.

(** X24.  The third line of the target configuration is handed to
    [append_cfg] between double quotes.  The remote shell strips them, so
    the line lands in the file without quotes, while the search goes on
    looking for it with quotes.  Hence on a newline-terminated file none of
    whose lines starts with a double quote, every [append_cfg] of the
    target's lines that returns has appended the Lun line at the end of the
    file, also when the file held it already: each deploy adds one more
    copy. *)
Theorem lun_line_appended_each_time (self : Target.t) (ls : list string)
    (r r' : remote) :
  no_nl (Target.device self) = true →
  all_dq_literal (Target.device self) = true →
  is_Some (re_compile (Target.device self)) →
  forallb no_nl ls = true →
  forallb (λ l, negb (Py.startswith dq l)) ls = true →
  files r !! "/etc/ietd.conf" = Some (unlines ls) →
  ISCSI.append_cfg "/etc/ietd.conf" (Target.ietd_lines self) r = Some (Ret tt, r') →
  ∃ added, files r' !! "/etc/ietd.conf"
           = Some (unlines ls +:+ added +:+ lun_written self +:+ nl).
Proof.
  intros Hnl Hlit Hre Hls Hquote Hcfg H.
  destruct (quoted_lun_pattern self Hnl Hre) as (rq & Hrq & Hfree).
  set (quoted := dq +:+ String TAB "Lun 0 Path=" +:+ Target.device self +:+ dq) in *.
  assert (Hsearch : re_search_line quoted (unlines ls) = Some false).
  { unfold re_search_line. rewrite Hrq. cbn [mbind option_bind]. f_equal.
    rewrite (re_search_unlines _ ls Hfree Hls).
    now rewrite (quoted_pattern_finds_nothing rq ls Hquote). }
  assert (Hecho : echo_out false quoted = Some (lun_written self +:+ nl)).
  { change (echo_out false (dq +:+ lun_written self +:+ dq)
            = Some (lun_written self +:+ nl)).
    apply echo_out_quoted_line; [| reflexivity].
    unfold lun_written. now rewrite all_dq_literal_app, Hlit. }
  unfold ISCSI.append_cfg in H.
  rewrite bind_unfold, (cat_ok "/etc/ietd.conf" _ _ eq_refl Hcfg) in H.
  change (Target.ietd_lines self)
    with (["IncomingUser user passwd"; "Target " +:+ Target.iqn self] ++ [quoted])%list
    in H.
  rewrite append_cfg_loop_app in H.
  apply bind_ret_inv in H as ([] & r1 & H1 & H2).
  destruct (append_cfg_loop_appends _ _ _ _ _ _ _ Hcfg H1) as ((added & Hadded) & _).
  exists added.
  simpl in H2. rewrite Hsearch in H2.
  apply bind_ret_inv in H2 as ([] & r2 & Hecho2 & H2). injection H2 as <-.
  unfold echo_append in Hecho2.
  change (plain_path "/etc/ietd.conf") with true in Hecho2. cbv iota in Hecho2.
  rewrite Hecho, Hadded in Hecho2. simpl in Hecho2. injection Hecho2 as <-.
  simpl. rewrite lookup_insert_eq. now rewrite !app_assoc_s.
Qed.

Lemma lun_line_appended_each_time_witness :
  ∃ added,
    files (mk_remote [("/etc/ietd.conf",
             unlines ["IncomingUser user passwd";
                      "Target iqn.2015-01.qa.cloud.suse.de:id01";
                      String TAB "Lun 0 Path=/dev/sdc";
                      String TAB "Lun 0 Path=/dev/sdc"])]) !! "/etc/ietd.conf"
    = Some (unlines ["IncomingUser user passwd";
                     "Target iqn.2015-01.qa.cloud.suse.de:id01";
                     String TAB "Lun 0 Path=/dev/sdc"]
            +:+ added +:+ lun_written sdc_target +:+ nl).
Proof.
  apply (lun_line_appended_each_time sdc_target
           ["IncomingUser user passwd";
            "Target iqn.2015-01.qa.cloud.suse.de:id01";
            String TAB "Lun 0 Path=/dev/sdc"]
           (mk_remote [("/etc/ietd.conf",
              unlines ["IncomingUser user passwd";
                       "Target iqn.2015-01.qa.cloud.suse.de:id01";
                       String TAB "Lun 0 Path=/dev/sdc"])]));
    try reflexivity; vm_compute; eauto.
Defined.
